(** * CryptoWatch: the contact-directory screen, embedded and verified

    The repository holds two React Native components:

    - [src/app/(tabs)/index.tsx], the [HomeScreen] component (users,
      favourites, filter flag, add-user form, clear-favourites dialog);
    - [src/app.js], the older [App] component (users and favourites only).

    Both are state-holding function components whose handlers talk to three
    platform services: [axios] (HTTP), [AsyncStorage] (a persistent key-value
    store of strings) and [Alert] (dialogs).  The embedding is shallow:

    - component state is a record, one field per [useState] cell;
    - a handler is a function of the state snapshot captured by the render
      that created it, and runs in a small state-and-exception monad over a
      machine made of the pending component state, the storage contents and
      the chronological log of platform calls;
    - how the outside world answers during one handler run (HTTP replies,
      storage failures) is a parameter of the run, an [Env];
    - [try]/[catch]/[finally] are combinators of the monad.

    Identifiers are integers ([User.id] is documented as an integer), so they
    are embedded as [Z]; on integers JavaScript's [Array.prototype.includes]
    (SameValueZero) and [!==] agree with equality on [Z]. *)

From Stdlib Require Import ZArith NArith Ascii String Decimal DecimalString.
From Stdlib Require Import DecimalPos DecimalZ.
From stdpp Require Import base decidable option list gmap strings.

Local Open Scope Z_scope.

(** ** JavaScript strings

    A JavaScript string is a sequence of UTF-16 code units.  The texts typed
    in the form (name, e-mail) are embedded as lists of code units so that
    [String.prototype.trim] can be modelled on the full ECMAScript white
    space and line terminator sets.  Program literals and storage texts,
    which are plain text, use Rocq's [string]. *)

Definition code_unit := N.
Definition jsstring := list code_unit.

(** ECMAScript [WhiteSpace] and [LineTerminator] code points (all in the
    basic plane): TAB, LF, VT, FF, CR, SP, NBSP, U+1680, U+2000..U+200A,
    U+2028, U+2029, U+202F, U+205F, U+3000, U+FEFF. *)
Definition is_white_space (c : code_unit) : bool :=
  ((9 <=? c) && (c <=? 13) || (c =? 32) || (c =? 160) || (c =? 5760)
   || ((8192 <=? c) && (c <=? 8202)) || (c =? 8232) || (c =? 8233)
   || (c =? 8239) || (c =? 8287) || (c =? 12288) || (c =? 65279))%N.

Fixpoint trimStart (s : jsstring) : jsstring :=
  match s with
  | c :: s' => if is_white_space c then trimStart s' else s
  | [] => []
  end.

Definition trimEnd (s : jsstring) : jsstring := rev (trimStart (rev s)).

(** [s.trim()] *)
Definition trim (s : jsstring) : jsstring := trimEnd (trimStart s).

(** Truthiness of a string value: only the empty string is falsy. *)
Definition truthy {A} (s : list A) : bool :=
  match s with [] => false | _ => true end.

Definition truthy_text (s : string) : bool :=
  match s with EmptyString => false | _ => true end.

(** The code units of an ASCII literal, to write examples. *)
Fixpoint js (s : string) : jsstring :=
  match s with
  | EmptyString => []
  | String c s' => N_of_ascii c :: js s'
  end.

(** ** Data model (index.tsx, lines 22-26) *)

Record User := { id : Z; name : jsstring; email : jsstring }.

(** ** The favourites list

    [newFavorites] is the local variable of [toggleFavorite]
    (index.tsx lines 69-76, app.js lines 57-63):
    [favorites.includes(userId) ? favorites.filter(id => id !== userId)
                                : [...favorites, userId]]. *)
Definition newFavorites (favorites : list Z) (userId : Z) : list Z :=
  if decide (userId ∈ favorites)
  then filter (λ id, id ≠ userId) favorites
  else favorites ++ [userId].

(** ** JSON text of a list of integers

    [JSON.stringify] on an array of integers writes the decimal numerals
    separated by commas between square brackets, without white space.  The
    numerals are those of the Standard Library's decimal printer (a minus
    sign for negative numbers, no leading zero), which is what
    [Number::toString] writes for every integer of magnitude below 10^21,
    the safe integers included. *)

Definition string_of_Z (n : Z) : string :=
  NilZero.string_of_int (Z.to_int n).

Fixpoint join_numbers (l : list Z) : string :=
  match l with
  | [] => ""
  | [n] => string_of_Z n
  | n :: l' => string_of_Z n +:+ String "," (join_numbers l')
  end.

Definition JSON_stringify (l : list Z) : string :=
  String "[" (join_numbers l +:+ "]").

(** [JSON.parse], restricted to the texts that denote arrays of integers: a
    deterministic reader of the JSON grammar for arrays (an opening bracket,
    values separated by commas, a closing bracket, JSON white space allowed
    around every token) whose values are integer numerals (an optional minus
    sign, then either the single digit 0 or a non-zero digit followed by
    digits).  Any other text is reported as a failure ([None], the
    [SyntaxError] of the platform); texts that are valid JSON but do not
    denote an array of integers cannot be values of the state cell of type
    array of numbers and are outside the model. *)

Definition is_json_ws (c : ascii) : bool :=
  match N_of_ascii c with
  | 32%N | 9%N | 10%N | 13%N => true
  | _ => false
  end.

Definition digit_of_char (c : ascii) : option N :=
  let n := N_of_ascii c in
  if ((48 <=? n) && (n <=? 57))%N then Some (n - 48)%N else None.

Inductive pstate :=
| PStart                                   (* before the opening bracket *)
| PElem (acc : list Z) (first : bool)      (* a value is expected; [first]:
                                              the array may also close here *)
| PMinus (acc : list Z)                    (* a minus sign was read *)
| PZero (acc : list Z)                     (* the numeral 0 or -0 was read *)
| PDigits (acc : list Z) (neg : bool) (n : N)  (* inside [1-9][0-9]* *)
| PAfter (acc : list Z)                    (* after a value and white space *)
| PDone (acc : list Z).                    (* after the closing bracket *)

Definition signed (neg : bool) (n : N) : Z :=
  if neg then - Z.of_N n else Z.of_N n.

Definition begin_digits (acc : list Z) (neg : bool) (c : ascii) : option pstate :=
  match digit_of_char c with
  | Some 0%N => Some (PZero acc)
  | Some d => Some (PDigits acc neg d)
  | None => None
  end.

Definition begin_value (acc : list Z) (c : ascii) : option pstate :=
  if Ascii.eqb c "-" then Some (PMinus acc) else begin_digits acc false c.

Definition after_value (acc : list Z) (c : ascii) : option pstate :=
  if is_json_ws c then Some (PAfter acc)
  else if Ascii.eqb c "," then Some (PElem acc false)
  else if Ascii.eqb c "]" then Some (PDone acc)
  else None.

Definition pstep (st : pstate) (c : ascii) : option pstate :=
  match st with
  | PStart =>
      if is_json_ws c then Some PStart
      else if Ascii.eqb c "[" then Some (PElem [] true) else None
  | PElem acc first =>
      if is_json_ws c then Some (PElem acc first)
      else if first && Ascii.eqb c "]" then Some (PDone acc)
      else begin_value acc c
  | PMinus acc => begin_digits acc true c
  | PZero acc => after_value (acc ++ [0]) c
  | PDigits acc neg n =>
      match digit_of_char c with
      | Some d => Some (PDigits acc neg (n * 10 + d)%N)
      | None => after_value (acc ++ [signed neg n]) c
      end
  | PAfter acc => after_value acc c
  | PDone acc => if is_json_ws c then Some (PDone acc) else None
  end.

Fixpoint prun (st : pstate) (s : string) : option pstate :=
  match s with
  | EmptyString => Some st
  | String c s' =>
      match pstep st c with
      | Some st' => prun st' s'
      | None => None
      end
  end.

Definition JSON_parse (s : string) : option (list Z) :=
  match prun PStart s with
  | Some (PDone acc) => Some acc
  | _ => None
  end.

(** ** The platform: events, exceptions, dialogs *)

(** What a rejected promise or a throwing call carries. *)
Inductive exn := NetworkError | StorageError | SyntaxError.

Inductive button_style := cancel | destructive.

(** The closures handed to the platform as button callbacks.  The program
    has one: the [onPress] of the destructive button of the confirmation
    dialog (index.tsx lines 101-107). *)
Inductive callback := ClearConfirmed.

Record button :=
  { text : string; style : button_style; onPress : option callback }.

(** The message of an alert: a literal, or the template literal of
    index.tsx line 142 with the name and id of the new user. *)
Inductive message :=
| Text (s : string)
| UserAddedText (user_name : jsstring) (user_id : Z).

(** One entry per call made to the platform, in the order of the calls.  A
    call is logged when it is issued, whether it then succeeds or fails. *)
Inductive event :=
| AxiosGet (url : string)
| AxiosPost (url : string) (body_name body_email : jsstring)
| GetItem (key : string)
| SetItem (key value : string)
| RemoveItem (key : string)
| AlertShown (title : string) (body : message) (buttons : list button)
| ConsoleError (label : option string) (error : exn).

(** How the outside world answers during one handler run: the reply of the
    directory service to a GET and to a POST ([None]: the request fails),
    and whether each storage operation succeeds. *)
Record Env :=
  { get_response : option (list User);
    post_response : jsstring → jsstring → option User;
    getItem_ok : bool;
    setItem_ok : bool;
    removeItem_ok : bool }.

(** ** The handler monad *)

Section Handler.
Context {S : Type}.

(** [view]: the component state as the setters leave it (what the next
    render shows); [disk]: the contents of AsyncStorage; [log]: the
    platform calls so far. *)
Record Machine := { view : S; disk : gmap string string; log : list event }.

Inductive result (A : Type) :=
| Ok (a : A) (m : Machine)
| Throw (e : exn) (m : Machine).
#[global] Arguments Ok {A} a m.
#[global] Arguments Throw {A} e m.

Definition M (A : Type) := Machine → result A.

Definition ret {A} (a : A) : M A := λ m, Ok a m.

Definition bind {A B} (c : M A) (k : A → M B) : M B :=
  λ m, match c m with
       | Ok a m' => k a m'
       | Throw e m' => Throw e m'
       end.

Definition throw {A} (e : exn) : M A := λ m, Throw e m.

(** [try { body } catch (error) { handler error }] *)
Definition try_catch {A} (body : M A) (handler : exn → M A) : M A :=
  λ m, match body m with
       | Ok a m' => Ok a m'
       | Throw e m' => handler e m'
       end.

(** [try { body } finally { fin }]: [fin] runs on both exits; an exception
    of [body] is rethrown after it. *)
Definition try_finally {A} (body : M A) (fin : M unit) : M A :=
  λ m, match body m with
       | Ok a m' => bind fin (λ _, ret a) m'
       | Throw e m' => bind fin (λ _, throw e) m'
       end.

Definition emit (e : event) : M unit :=
  λ m, Ok () {| view := view m; disk := disk m; log := log m ++ [e] |}.

(** A state setter of [useState]. *)
Definition set_state (f : S → S) : M unit :=
  λ m, Ok () {| view := f (view m); disk := disk m; log := log m |}.

Definition set_disk (f : gmap string string → gmap string string) : M unit :=
  λ m, Ok () {| view := view m; disk := f (disk m); log := log m |}.

Definition read_disk (key : string) : M (option string) :=
  λ m, Ok (disk m !! key) m.

(** The machine a run ends in, whether it returned or threw (an exception
    that leaves a handler is an unhandled promise rejection: the component
    lives on). *)
Definition settle {A} (r : result A) : Machine :=
  match r with Ok _ m => m | Throw _ m => m end.

Definition returned {A} (r : result A) : bool :=
  match r with Ok _ _ => true | Throw _ _ => false end.

(** Invoking a handler: it sees the state of the latest render. *)
Definition dispatch {A} (handler : S → M A) : M A :=
  λ m, handler (view m) m.
End Handler.

Arguments Machine : clear implicits.
Arguments result : clear implicits.
Arguments M : clear implicits.

Declare Scope handler_scope.
Delimit Scope handler_scope with handler.
Notation "x ← c ; k" := (bind c (λ x, k))
  (at level 20, c at level 100, k at level 200, only parsing) : handler_scope.
Notation "c ;; k" := (bind c (λ _, k))
  (at level 100, k at level 200, right associativity, only parsing) : handler_scope.

Section Platform.
Context {S : Type}.
Local Open Scope handler_scope.

(** [await axios.get(url)], giving [response.data]. *)
Definition axios_get (env : Env) (url : string) : M S (list User) :=
  emit (AxiosGet url);;
  match get_response env with
  | Some data => ret data
  | None => throw NetworkError
  end.

(** [await axios.post(url, {name, email})], giving [response.data]. *)
Definition axios_post (env : Env) (url : string) (body_name body_email : jsstring)
  : M S User :=
  emit (AxiosPost url body_name body_email);;
  match post_response env body_name body_email with
  | Some data => ret data
  | None => throw NetworkError
  end.

(** [await AsyncStorage.getItem(key)]: the stored text, or null. *)
Definition AsyncStorage_getItem (env : Env) (key : string) : M S (option string) :=
  emit (GetItem key);;
  if getItem_ok env then read_disk key else throw StorageError.

(** [await AsyncStorage.setItem(key, value)] *)
Definition AsyncStorage_setItem (env : Env) (key value : string) : M S unit :=
  emit (SetItem key value);;
  if setItem_ok env then set_disk (insert key value) else throw StorageError.

(** [await AsyncStorage.removeItem(key)] *)
Definition AsyncStorage_removeItem (env : Env) (key : string) : M S unit :=
  emit (RemoveItem key);;
  if removeItem_ok env then set_disk (delete key) else throw StorageError.

(** [Alert.alert(title, message, buttons)]: shows the dialog and returns at
    once; the callbacks of its buttons run later, when one is pressed. *)
Definition Alert_alert (title : string) (body : message) (buttons : list button)
  : M S unit :=
  emit (AlertShown title body buttons).

Definition console_error (label : option string) (error : exn) : M S unit :=
  emit (ConsoleError label error).

Definition JSON_parse_or_throw (s : string) : M S (list Z) :=
  match JSON_parse s with
  | Some l => ret l
  | None => throw SyntaxError
  end.
End Platform.

Definition FAVORITES_KEY : string := "@my_favorites_ids".
Definition USERS_URL : string := "https://jsonplaceholder.typicode.com/users".

(** ** The [HomeScreen] component (src/app/(tabs)/index.tsx) *)

Module HomeScreen.
Local Open Scope handler_scope.

(** The six [useState] cells (lines 30-35). *)
Record State :=
  { users : list User;
    favorites : list Z;
    isLoading : bool;
    showOnlyFavorites : bool;
    newUserName : jsstring;
    newUserEmail : jsstring }.

(** The state of the first render. *)
Definition initial : State :=
  {| users := []; favorites := []; isLoading := true;
     showOnlyFavorites := false; newUserName := []; newUserEmail := [] |}.

Definition setUsers (v : list User) : M State unit :=
  set_state (λ s, {| users := v; favorites := favorites s;
                     isLoading := isLoading s;
                     showOnlyFavorites := showOnlyFavorites s;
                     newUserName := newUserName s;
                     newUserEmail := newUserEmail s |}).

Definition setFavorites (v : list Z) : M State unit :=
  set_state (λ s, {| users := users s; favorites := v;
                     isLoading := isLoading s;
                     showOnlyFavorites := showOnlyFavorites s;
                     newUserName := newUserName s;
                     newUserEmail := newUserEmail s |}).

Definition setIsLoading (v : bool) : M State unit :=
  set_state (λ s, {| users := users s; favorites := favorites s;
                     isLoading := v;
                     showOnlyFavorites := showOnlyFavorites s;
                     newUserName := newUserName s;
                     newUserEmail := newUserEmail s |}).

Definition setNewUserName (v : jsstring) : M State unit :=
  set_state (λ s, {| users := users s; favorites := favorites s;
                     isLoading := isLoading s;
                     showOnlyFavorites := showOnlyFavorites s;
                     newUserName := v;
                     newUserEmail := newUserEmail s |}).

Definition setNewUserEmail (v : jsstring) : M State unit :=
  set_state (λ s, {| users := users s; favorites := favorites s;
                     isLoading := isLoading s;
                     showOnlyFavorites := showOnlyFavorites s;
                     newUserName := newUserName s;
                     newUserEmail := v |}).

(** Lines 47-50, the reading half of the favourites store: read the key and,
    when the text is truthy, parse it and commit the list. *)
Definition loadFavorites (env : Env) : M State unit :=
  storedFavs ← AsyncStorage_getItem env FAVORITES_KEY;
  match storedFavs with
  | Some stored =>
      if truthy_text stored
      then (parsed ← JSON_parse_or_throw stored; setFavorites parsed)
      else ret ()
  | None => ret ()
  end.

(** Line 83, the writing half: the whole list, as JSON, under the key. *)
Definition saveFavorites (env : Env) (ids : list Z) : M State unit :=
  AsyncStorage_setItem env FAVORITES_KEY (JSON_stringify ids).

(** Line 103, the deletion of the key. *)
Definition clearFavorites (env : Env) : M State unit :=
  AsyncStorage_removeItem env FAVORITES_KEY.

(** [loadData] (lines 39-57). *)
Definition loadData (env : Env) (_ : State) : M State unit :=
  setIsLoading true;;
  try_finally
    (try_catch
       (response ← axios_get env USERS_URL;
        setUsers response;;
        loadFavorites env)
       (λ error,
          Alert_alert "Erreur" (Text "Impossible de charger les données") [];;
          console_error None error))
    (setIsLoading false).

(** [toggleFavorite] (lines 67-87). *)
Definition toggleFavorite (env : Env) (userId : Z) (s : State) : M State unit :=
  try_catch
    (let newFavorites := newFavorites (favorites s) userId in
     setFavorites newFavorites;;
     saveFavorites env newFavorites)
    (λ error, console_error (Some "Erreur de sauvegarde") error).

(** The two buttons of the confirmation dialog (lines 96-109). *)
Definition confirm_buttons : list button :=
  [ {| text := "Annuler"; style := cancel; onPress := None |};
    {| text := "Effacer"; style := destructive;
       onPress := Some ClearConfirmed |} ].

(** [clearAllFavorites] (lines 90-115): the [try] block only shows the
    dialog; the [catch] block guards that call. *)
Definition clearAllFavorites (_ : Env) (_ : State) : M State unit :=
  try_catch
    (Alert_alert "Confirmation"
       (Text "Voulez-vous vraiment effacer tous les favoris ?")
       confirm_buttons)
    (λ error,
       console_error (Some "Erreur lors de l'effacement") error;;
       Alert_alert "Erreur" (Text "Impossible d'effacer les favoris") []).

(** The body of a button callback (lines 101-107 for [ClearConfirmed]). *)
Definition run_callback (cb : callback) (env : Env) : M State unit :=
  match cb with
  | ClearConfirmed =>
      clearFavorites env;;
      setFavorites [];;
      Alert_alert "Succès" (Text "Tous les favoris ont été effacés") []
  end.

(** Pressing a button of a dialog: the platform closes the dialog and calls
    the button's [onPress], if it has one, outside any handler. *)
Definition press (b : button) (env : Env) : M State unit :=
  match onPress b with
  | Some cb => run_callback cb env
  | None => ret ()
  end.

(** [addUser] (lines 118-147). *)
Definition addUser (env : Env) (s : State) : M State unit :=
  if negb (truthy (trim (newUserName s))) || negb (truthy (trim (newUserEmail s)))
  then Alert_alert "Erreur" (Text "Veuillez remplir tous les champs") []
  else
    try_catch
      (newUser ← axios_post env USERS_URL (newUserName s) (newUserEmail s);
       setUsers (newUser :: users s);;
       setNewUserName [];;
       setNewUserEmail [];;
       Alert_alert "Succès" (UserAddedText (name newUser) (id newUser)) [])
      (λ error,
         console_error (Some "Erreur lors de l'ajout") error;;
         Alert_alert "Erreur" (Text "Impossible d'ajouter l'utilisateur") []).

(** [getFilteredUsers] (lines 150-156). *)
Definition getFilteredUsers (s : State) : list User :=
  if showOnlyFavorites s
  then filter (λ user, id user ∈ favorites s) (users s)
  else users s.

(** The sixth setter, of the filter flag (line 33). *)
Definition setShowOnlyFavorites (v : bool) : M State unit :=
  set_state (λ s, {| users := users s; favorites := favorites s;
                     isLoading := isLoading s;
                     showOnlyFavorites := v;
                     newUserName := newUserName s;
                     newUserEmail := newUserEmail s |}).

(** The [onPress] of the filter button (line 217):
    [() => setShowOnlyFavorites(!showOnlyFavorites)]. *)
Definition onPressFilter (s : State) : M State unit :=
  setShowOnlyFavorites (negb (showOnlyFavorites s)).

(** [keyExtractor] of the list (line 234): [item.id.toString()]. *)
Definition keyExtractor (item : User) : string := string_of_Z (id item).

(** What [renderItem] (lines 160-176) puts in a card: the two texts, the
    style and glyph of the star button, and the id its [onPress] hands to
    [toggleFavorite]. *)
Record card :=
  { card_name : jsstring;
    card_email : jsstring;
    favActive : bool;
    favText : string;
    card_onPress : Z }.

Definition renderItem (s : State) (item : User) : card :=
  let isFav := bool_decide (id item ∈ favorites s) in
  {| card_name := name item;
     card_email := email item;
     favActive := isFav;
     favText := if isFav then "★" else "☆";
     card_onPress := id item |}.

(** What the component returns (lines 179-246): the loader while
    [isLoading], else the form with its two inputs, the filter button (its
    active style and its label), and the list: one keyed card per element of
    [getFilteredUsers()], or the [ListEmptyComponent] text when there is
    none. *)
Inductive screen :=
| Loader (caption : string)
| Directory (nameInput emailInput : jsstring)
    (filterActive : bool) (filterLabel : string)
    (cards : list (string * card)) (emptyText : option string).

Definition render (s : State) : screen :=
  if isLoading s then Loader "Chargement des contacts..."
  else
    let data := getFilteredUsers s in
    Directory (newUserName s) (newUserEmail s)
      (showOnlyFavorites s)
      (if showOnlyFavorites s then " Afficher tout" else " Afficher favoris")
      (map (λ item, (keyExtractor item, renderItem s item)) data)
      (match data with
       | [] => Some "Aucun favori pour le moment"
       | _ => None
       end).

(** What the user can do on the screen, one constructor per callback the
    rendered tree installs: [onChangeText] of the two inputs (lines 198 and
    204), [onPress] of the add button (line 208), of the filter button (line
    217), of the clear button (line 226), of the star of a card (line 169),
    and a button of the dialog on display. *)
Inductive action :=
| ChangeName (typed : jsstring)
| ChangeEmail (typed : jsstring)
| PressAdd
| PressFilter
| PressClearAll
| PressStar (userId : Z)
| PressButton (b : button).

Definition perform (env : Env) (a : action) : M State unit :=
  match a with
  | ChangeName typed => setNewUserName typed
  | ChangeEmail typed => setNewUserEmail typed
  | PressAdd => dispatch (addUser env)
  | PressFilter => dispatch onPressFilter
  | PressClearAll => dispatch (clearAllFavorites env)
  | PressStar userId => dispatch (toggleFavorite env userId)
  | PressButton b => press b env
  end.

(** Mounting the component (lines 61-64): the effect calls [loadData] once,
    on the first render, over whatever the storage holds. *)
Definition mount (env : Env) (stored : gmap string string) : result State unit :=
  dispatch (loadData env) {| view := initial; disk := stored; log := [] |}.

End HomeScreen.

(** ** The [App] component (src/app.js) *)

Module App.
Local Open Scope handler_scope.

(** The three [useState] cells (lines 22-24). *)
Record State :=
  { users : list User; favorites : list Z; isLoading : bool }.

Definition setUsers (v : list User) : M State unit :=
  set_state (λ s, {| users := v; favorites := favorites s;
                     isLoading := isLoading s |}).

Definition setFavorites (v : list Z) : M State unit :=
  set_state (λ s, {| users := users s; favorites := v;
                     isLoading := isLoading s |}).

Definition setIsLoading (v : bool) : M State unit :=
  set_state (λ s, {| users := users s; favorites := favorites s;
                     isLoading := v |}).

(** [loadData] (lines 32-52). *)
Definition loadData (env : Env) (_ : State) : M State unit :=
  setIsLoading true;;
  try_finally
    (try_catch
       (response ← axios_get env USERS_URL;
        setUsers response;;
        storedFavs ← AsyncStorage_getItem env FAVORITES_KEY;
        match storedFavs with
        | Some stored =>
            if truthy_text stored
            then (parsed ← JSON_parse_or_throw stored; setFavorites parsed)
            else ret ()
        | None => ret ()
        end)
       (λ error,
          Alert_alert "Erreur" (Text "Impossible de charger les données") [];;
          console_error None error))
    (setIsLoading false).

(** [toggleFavorite] (lines 55-73). *)
Definition toggleFavorite (env : Env) (userId : Z) (s : State) : M State unit :=
  try_catch
    (let newFavorites := newFavorites (favorites s) userId in
     setFavorites newFavorites;;
     AsyncStorage_setItem env FAVORITES_KEY (JSON_stringify newFavorites))
    (λ error, console_error (Some "Erreur de sauvegarde") error).

(** The state of the first render. *)
Definition initial : State :=
  {| users := []; favorites := []; isLoading := true |}.

(** [keyExtractor] (line 114). *)
Definition keyExtractor (item : User) : string := string_of_Z (id item).

(** The card of [renderItem] (lines 76-99). *)
Record card :=
  { card_name : jsstring;
    card_email : jsstring;
    favActive : bool;
    favText : string;
    card_onPress : Z }.

Definition renderItem (s : State) (item : User) : card :=
  let isFav := bool_decide (id item ∈ favorites s) in
  {| card_name := name item;
     card_email := email item;
     favActive := isFav;
     favText := if isFav then "★" else "☆";
     card_onPress := id item |}.

(** What the component returns (lines 102-120): the loader, or one keyed
    card per user. *)
Inductive screen :=
| Loader (caption : string)
| Directory (cards : list (string * card)).

Definition render (s : State) : screen :=
  if isLoading s then Loader "Chargement des contacts..."
  else Directory (map (λ item, (keyExtractor item, renderItem s item)) (users s)).

(** Mounting the component (lines 27-29). *)
Definition mount (env : Env) (stored : gmap string string) : result State unit :=
  dispatch (loadData env) {| view := initial; disk := stored; log := [] |}.

End App.

(** ** Vocabulary of the statements *)

(** Runs of handlers one after the other: each invocation sees the state
    left by the previous ones and runs to completion before the next (the
    event loop of the platform is single threaded). *)
Definition run_all {S} (handlers : list (S → M S unit)) (m : Machine S) : Machine S :=
  foldl (λ m handler, settle (dispatch handler m)) m handlers.

(** A sequence of [toggleFavorite] calls, each with the answers the storage
    gives during it. *)
Definition HomeScreen_toggles (calls : list (Env * Z))
  : list (HomeScreen.State → M HomeScreen.State unit) :=
  map (λ call, HomeScreen.toggleFavorite call.1 call.2) calls.

Definition App_toggles (calls : list (Env * Z))
  : list (App.State → M App.State unit) :=
  map (λ call, App.toggleFavorite call.1 call.2) calls.

(** An environment in which every request succeeds; the directory service
    answers a POST by echoing the body with the id 11, as the service the
    program talks to does. *)
Definition env_ok : Env :=
  {| get_response := Some [];
     post_response := λ n e, Some {| id := 11; name := n; email := e |};
     getItem_ok := true; setItem_ok := true; removeItem_ok := true |}.

(** An environment in which every request fails. *)
Definition env_down : Env :=
  {| get_response := None;
     post_response := λ _ _, None;
     getItem_ok := false; setItem_ok := false; removeItem_ok := false |}.

(** A [HomeScreen] showing the given favourites, with empty storage. *)
Definition home_with (favs : list Z) : Machine HomeScreen.State :=
  {| view := {| HomeScreen.users := []; HomeScreen.favorites := favs;
                HomeScreen.isLoading := false;
                HomeScreen.showOnlyFavorites := false;
                HomeScreen.newUserName := []; HomeScreen.newUserEmail := [] |};
     disk := ∅; log := [] |}.

Definition app_with (favs : list Z) : Machine App.State :=
  {| view := {| App.users := []; App.favorites := favs; App.isLoading := false |};
     disk := ∅; log := [] |}.

(** How many times an id occurs in a sequence of toggled ids. *)
Definition times_toggled (ids : list Z) (x : Z) : nat :=
  count_occ Z.eq_dec ids x.

(** The set of the ids toggled an odd number of times. *)
Definition toggled_odd (ids : list Z) : gset Z :=
  filter (λ x, Nat.odd (times_toggled ids x) = true) (list_to_set ids).

Definition symmetric_difference (X Y : gset Z) : gset Z := (X ∖ Y) ∪ (Y ∖ X).

Definition is_network_call (e : event) : bool :=
  match e with AxiosGet _ | AxiosPost _ _ _ => true | _ => false end.

Definition is_storage_call (e : event) : bool :=
  match e with GetItem _ | SetItem _ _ | RemoveItem _ => true | _ => false end.

Definition is_alert (e : event) : bool :=
  match e with AlertShown _ _ _ => true | _ => false end.

(** A session on the [HomeScreen]: actions performed one after the other,
    each with the answers the outside world gives during it. *)
Definition session (steps : list (Env * HomeScreen.action)) (m : Machine HomeScreen.State)
  : Machine HomeScreen.State :=
  foldl (λ m step, settle (HomeScreen.perform step.1 step.2 m)) m steps.


(** The storage says what the component shows: the stored text is the one
    written for the favourites list, or there is none and the list is
    empty. *)
Definition synced (m : Machine HomeScreen.State) : Prop :=
  match disk m !! FAVORITES_KEY with
  | Some stored => stored = JSON_stringify (HomeScreen.favorites (view m))
  | None => HomeScreen.favorites (view m) = []
  end.

(** A list of code units made of white space only. *)
Definition blank (s : jsstring) : Prop := Forall (λ c, is_white_space c = true) s.

(** The calls of a run: what it appended to the log. *)
Definition calls_of {S} (before after : Machine S) : list event :=
  drop (length (log before)) (log after).

(** The cards a screen shows. *)
Definition cards_of (sc : HomeScreen.screen) : list (string * HomeScreen.card) :=
  match sc with
  | HomeScreen.Loader _ => []
  | HomeScreen.Directory _ _ _ _ cards _ => cards
  end.

(** Every write of the favourites attempted during the steps succeeds. *)
Definition writes_succeed (steps : list (Env * HomeScreen.action)) : Prop :=
  Forall (λ step, match step.2 with
                  | HomeScreen.PressStar _ => setItem_ok step.1 = true
                  | _ => True
                  end) steps.

(** The confirming button of the clearing dialog. *)
Definition confirm_button : button :=
  {| text := "Effacer"; style := destructive; onPress := Some ClearConfirmed |}.

(** The number a digit string denotes when read after the digits of [n]. *)
Fixpoint uval (n : N) (d : uint) : N :=
  match d with
  | Nil => n
  | D0 d => uval (n * 10 + 0) d
  | D1 d => uval (n * 10 + 1) d
  | D2 d => uval (n * 10 + 2) d
  | D3 d => uval (n * 10 + 3) d
  | D4 d => uval (n * 10 + 4) d
  | D5 d => uval (n * 10 + 5) d
  | D6 d => uval (n * 10 + 6) d
  | D7 d => uval (n * 10 + 7) d
  | D8 d => uval (n * 10 + 8) d
  | D9 d => uval (n * 10 + 9) d
  end%N.

(** * Properties *)

(** Unfolding a handler run down to the machine it computes. *)
Ltac run_handler :=
  unfold dispatch,
    HomeScreen.loadData, HomeScreen.toggleFavorite,
    HomeScreen.clearAllFavorites, HomeScreen.press, HomeScreen.run_callback,
    HomeScreen.addUser,
    HomeScreen.loadFavorites, HomeScreen.saveFavorites,
    HomeScreen.clearFavorites,
    HomeScreen.setUsers, HomeScreen.setFavorites, HomeScreen.setIsLoading,
    HomeScreen.setNewUserName, HomeScreen.setNewUserEmail,
    App.loadData, App.toggleFavorite,
    App.setUsers, App.setFavorites, App.setIsLoading,
    axios_get, axios_post, AsyncStorage_getItem, AsyncStorage_setItem,
    AsyncStorage_removeItem, Alert_alert, console_error, JSON_parse_or_throw,
    try_catch, try_finally, bind, ret, throw, emit, set_state, set_disk,
    read_disk;
  cbn beta iota.

(** Case analysis on what a run depends on: the answers of the outside
    world, the stored text, the trimmed form fields, the button pressed. *)
Ltac split_run :=
  repeat match goal with
    | |- context [get_response ?e] => destruct (get_response e) eqn:?
    | |- context [post_response ?e ?a ?b] => destruct (post_response e a b) eqn:?
    | |- context [getItem_ok ?e] => destruct (getItem_ok e) eqn:?
    | |- context [setItem_ok ?e] => destruct (setItem_ok e) eqn:?
    | |- context [removeItem_ok ?e] => destruct (removeItem_ok e) eqn:?
    | |- context [truthy (trim ?x)] => destruct (trim x) eqn:?
    | |- context [match onPress ?b with _ => _ end] =>
        destruct (onPress b) as [[]|] eqn:?
    | |- context [match disk ?m !! ?k with _ => _ end] =>
        destruct (disk m !! k) eqn:?
    | |- context [truthy_text ?x] => destruct (truthy_text x) eqn:?
    | |- context [JSON_parse ?x] => destruct (JSON_parse x) eqn:?
    | _ => progress cbn [truthy negb orb andb disk view log]
    end.

(** The same for an action of the screen or a mount. *)
Ltac run_action :=
  unfold HomeScreen.mount, App.mount, HomeScreen.perform;
  unfold dispatch, HomeScreen.onPressFilter, HomeScreen.setShowOnlyFavorites;
  run_handler.


(** ** JSON: parsing what was written *)

Section JsonRoundTrip.

Lemma uval_of_uint_acc (d : uint) (p : positive) :
  uval (Npos p) d = Npos (Pos.of_uint_acc d p).
Proof.
  revert p; induction d; intros p; simpl; try reflexivity;
    rewrite <- IHd; f_equal; lia.
Qed.

Lemma prun_digits (d : uint) (acc : list Z) (neg : bool) (n : N) (rest : string) :
  prun (PDigits acc neg n) (NilEmpty.string_of_uint d +:+ rest)
  = prun (PDigits acc neg (uval n d)) rest.
Proof.
  revert n; induction d; intros n; simpl; try reflexivity; apply IHd.
Qed.

(** A printed positive number has no leading zero. *)
Lemma nzhead_not_D0 (d d' : uint) : nzhead d ≠ D0 d'.
Proof. induction d; simpl; try discriminate; assumption. Qed.

Lemma unorm_D0 (d d' : uint) : unorm d = D0 d' → d' = Nil.
Proof.
  unfold unorm. pose proof (nzhead_not_D0 d) as H.
  destruct (nzhead d); intros E; try discriminate E.
  - now injection E.
  - now destruct (H d').
Qed.

Lemma to_uint_unorm (p : positive) : unorm (Pos.to_uint p) = Pos.to_uint p.
Proof.
  rewrite <- (DecimalPos.Unsigned.to_of (Pos.to_uint p)).
  now rewrite DecimalPos.Unsigned.of_to.
Qed.

Lemma to_uint_not_D0 (p : positive) (d : uint) : Pos.to_uint p ≠ D0 d.
Proof.
  intros E. pose proof (to_uint_unorm p) as U. rewrite E in U.
  assert (unorm (D0 d) = D0 d) as U' by exact U.
  apply unorm_D0 in U'. subst d.
  now apply (DecimalPos.Unsigned.to_uint_nonzero p).
Qed.

Lemma prun_positive (p : positive) (st : pstate) (acc : list Z) (neg : bool)
    (rest : string) :
  (∀ c d, digit_of_char c = Some d → pstep st c = begin_digits acc neg c) →
  prun st (NilEmpty.string_of_uint (Pos.to_uint p) +:+ rest)
  = prun (PDigits acc neg (Npos p)) rest.
Proof.
  intros Hst.
  pose proof (DecimalPos.Unsigned.of_to p) as Hp.
  pose proof (DecimalPos.Unsigned.to_uint_nonnil p) as Hnil.
  pose proof (to_uint_not_D0 p) as Hzero.
  destruct (Pos.to_uint p) as [|d|d|d|d|d|d|d|d|d|d];
    [ now destruct Hnil | now destruct (Hzero d) | .. ];
    simpl; (erewrite Hst by reflexivity); simpl;
    rewrite prun_digits; do 2 f_equal;
    simpl in Hp; rewrite <- Hp; apply uval_of_uint_acc.
Qed.

Lemma string_of_Z_pos (p : positive) :
  string_of_Z (Z.pos p) = NilEmpty.string_of_uint (Pos.to_uint p).
Proof.
  unfold string_of_Z; simpl.
  pose proof (DecimalPos.Unsigned.to_uint_nonnil p) as Hnil.
  now destruct (Pos.to_uint p).
Qed.

Lemma string_of_Z_neg (p : positive) :
  string_of_Z (Z.neg p) = String "-" (NilEmpty.string_of_uint (Pos.to_uint p)).
Proof.
  unfold string_of_Z; simpl.
  pose proof (DecimalPos.Unsigned.to_uint_nonnil p) as Hnil.
  now destruct (Pos.to_uint p).
Qed.

(** Reading one printed number, up to the separator [c] that follows it. *)
Lemma prun_value (x : Z) (acc : list Z) (first : bool) (c : ascii) (rest : string) :
  digit_of_char c = None →
  prun (PElem acc first) (string_of_Z x +:+ String c rest)
  = match after_value (acc ++ [x]) c with
    | Some st => prun st rest
    | None => None
    end.
Proof.
  intros Hc. destruct x as [|p|p].
  - destruct first; reflexivity.
  - rewrite string_of_Z_pos.
    rewrite (prun_positive p (PElem acc first) acc false).
    + simpl. now rewrite Hc.
    + intros c' d Hd. unfold digit_of_char in Hd. simpl.
      destruct c' as [[] [] [] [] [] [] [] []]; try discriminate Hd;
        destruct first; reflexivity.
  - rewrite string_of_Z_neg.
    assert (prun (PElem acc first)
              (String "-" (NilEmpty.string_of_uint (Pos.to_uint p))
               +:+ String c rest)
            = prun (PMinus acc)
                (NilEmpty.string_of_uint (Pos.to_uint p) +:+ String c rest))
      as -> by (destruct first; reflexivity).
    rewrite (prun_positive p (PMinus acc) acc true).
    + simpl. now rewrite Hc.
    + reflexivity.
Qed.

Lemma append_assoc (a b c : string) : (a +:+ b) +:+ c = a +:+ (b +:+ c).
Proof.
  induction a as [|x a IH]; [reflexivity |].
  change (String x ((a +:+ b) +:+ c) = String x (a +:+ (b +:+ c))).
  now rewrite IH.
Qed.

Lemma prun_join (l : list Z) (x : Z) (acc : list Z) (first : bool) :
  prun (PElem acc first) (join_numbers (x :: l) +:+ "]")
  = Some (PDone (acc ++ x :: l)).
Proof.
  revert x acc first; induction l as [|y l IH]; intros x acc first.
  - simpl join_numbers. now rewrite prun_value.
  - change (join_numbers (x :: y :: l))
      with (string_of_Z x +:+ String "," (join_numbers (y :: l))).
    rewrite append_assoc.
    change (String "," (join_numbers (y :: l)) +:+ "]")
      with (String "," (join_numbers (y :: l) +:+ "]")).
    rewrite prun_value by reflexivity.
    change (after_value (acc ++ [x]) ",") with (Some (PElem (acc ++ [x]) false)).
    cbv iota. rewrite IH. now rewrite <- app_assoc.
Qed.

Lemma JSON_parse_stringify (l : list Z) : JSON_parse (JSON_stringify l) = Some l.
Proof.
  unfold JSON_parse, JSON_stringify. destruct l as [|x l].
  - reflexivity.
  - change (prun PStart (String "[" (join_numbers (x :: l) +:+ "]")))
      with (prun (PElem [] true) (join_numbers (x :: l) +:+ "]")).
    now rewrite prun_join.
Qed.

Example JSON_stringify_example : JSON_stringify [1; -3; 0; 120] = "[1,-3,0,120]".
Proof. reflexivity. Qed.

Example JSON_parse_spaced : JSON_parse " [ 1 , -0,7 ] " = Some [1; 0; 7].
Proof. reflexivity. Qed.

Example JSON_parse_leading_zero : JSON_parse "[01]" = None.
Proof. reflexivity. Qed.

Example JSON_parse_trailing_comma : JSON_parse "[1,]" = None.
Proof. reflexivity. Qed.

Example trim_example : trim (js "  Jane Doe ") = js "Jane Doe".
Proof. reflexivity. Qed.

(** The text written for a list is never empty, hence truthy. *)
Lemma JSON_stringify_truthy (l : list Z) : truthy_text (JSON_stringify l) = true.
Proof. reflexivity. Qed.

End JsonRoundTrip.

(** ** The favourites list under [newFavorites] *)

Section NewFavorites.
Implicit Types (l ids : list Z) (x u : Z).

Lemma elem_of_newFavorites x l u :
  x ∈ newFavorites l u ↔ (x ≠ u ∧ x ∈ l) ∨ (x = u ∧ u ∉ l).
Proof.
  unfold newFavorites. destruct (decide (u ∈ l)) as [Hin|Hout].
  - rewrite list_elem_of_filter. intuition congruence.
  - rewrite elem_of_app, list_elem_of_singleton.
    destruct (decide (x = u)); intuition congruence.
Qed.

Lemma NoDup_newFavorites l u : NoDup l → NoDup (newFavorites l u).
Proof.
  intros Hl. unfold newFavorites. destruct (decide (u ∈ l)) as [Hin|Hout].
  - now apply NoDup_filter.
  - apply NoDup_app. split_and!; [done | | apply NoDup_singleton].
    intros y Hy Hy'. apply list_elem_of_singleton in Hy'. now subst.
Qed.

Lemma member_newFavorites x l u :
  bool_decide (x ∈ newFavorites l u)
  = xorb (bool_decide (x ∈ l)) (bool_decide (x = u)).
Proof.
  pose proof (elem_of_newFavorites x l u) as H.
  repeat case_bool_decide; simpl; intuition congruence.
Qed.

Lemma times_toggled_cons u ids x :
  Nat.odd (times_toggled (u :: ids) x)
  = xorb (bool_decide (x = u)) (Nat.odd (times_toggled ids x)).
Proof.
  unfold times_toggled. simpl. destruct (Z.eq_dec u x) as [->|Hne].
  - rewrite bool_decide_eq_true_2 by done. now rewrite Nat.odd_succ, <- Nat.negb_odd.
  - now rewrite bool_decide_eq_false_2 by done.
Qed.

Lemma member_foldl_newFavorites x ids l :
  bool_decide (x ∈ foldl newFavorites l ids)
  = xorb (bool_decide (x ∈ l)) (Nat.odd (times_toggled ids x)).
Proof.
  revert l; induction ids as [|u ids IH]; intros l; simpl foldl.
  - now rewrite xorb_false_r.
  - now rewrite IH, member_newFavorites, times_toggled_cons, xorb_assoc.
Qed.

Lemma NoDup_foldl_newFavorites ids l :
  NoDup l → NoDup (foldl newFavorites l ids).
Proof.
  revert l; induction ids as [|u ids IH]; intros l Hl; simpl; [done|].
  now apply IH, NoDup_newFavorites.
Qed.

Lemma elem_of_toggled_odd x ids :
  x ∈ toggled_odd ids ↔ Nat.odd (times_toggled ids x) = true.
Proof.
  unfold toggled_odd. rewrite elem_of_filter, elem_of_list_to_set.
  split; [tauto|]. intros H. split; [done|].
  unfold times_toggled in H. apply list_elem_of_In.
  apply (count_occ_In Z.eq_dec). destruct (count_occ Z.eq_dec ids x); [done | lia].
Qed.

Lemma foldl_newFavorites_set ids l :
  list_to_set (foldl newFavorites l ids)
  = symmetric_difference (list_to_set l) (toggled_odd ids).
Proof.
  apply set_eq; intros x. unfold symmetric_difference.
  rewrite elem_of_union, !elem_of_difference, !elem_of_list_to_set,
    elem_of_toggled_odd.
  pose proof (member_foldl_newFavorites x ids l) as H.
  destruct (Nat.odd (times_toggled ids x));
    repeat case_bool_decide; simpl in H; intuition congruence.
Qed.

End NewFavorites.

(** ** [toggleFavorite] *)

Section ToggleFavorite.
Implicit Types (env : Env) (u : Z) (calls : list (Env * Z)).

(** The whole effect of one call on the machine. *)
Lemma HomeScreen_toggleFavorite_run env u (m : Machine HomeScreen.State) :
  let s := view m in
  let nf := newFavorites (HomeScreen.favorites s) u in
  dispatch (HomeScreen.toggleFavorite env u) m
  = Ok ()
      {| view := {| HomeScreen.users := HomeScreen.users s;
                    HomeScreen.favorites := nf;
                    HomeScreen.isLoading := HomeScreen.isLoading s;
                    HomeScreen.showOnlyFavorites := HomeScreen.showOnlyFavorites s;
                    HomeScreen.newUserName := HomeScreen.newUserName s;
                    HomeScreen.newUserEmail := HomeScreen.newUserEmail s |};
         disk := if setItem_ok env
                 then <[FAVORITES_KEY := JSON_stringify nf]> (disk m)
                 else disk m;
         log := if setItem_ok env
                then log m ++ [SetItem FAVORITES_KEY (JSON_stringify nf)]
                else (log m ++ [SetItem FAVORITES_KEY (JSON_stringify nf)])
                     ++ [ConsoleError (Some "Erreur de sauvegarde") StorageError] |}.
Proof.
  intros s nf. subst s nf.
  unfold dispatch, HomeScreen.toggleFavorite, HomeScreen.saveFavorites,
    HomeScreen.setFavorites, AsyncStorage_setItem, console_error, try_catch,
    bind, emit, set_state, set_disk, throw.
  simpl. destruct (setItem_ok env); reflexivity.
Qed.

Lemma App_toggleFavorite_run env u (m : Machine App.State) :
  let s := view m in
  let nf := newFavorites (App.favorites s) u in
  dispatch (App.toggleFavorite env u) m
  = Ok ()
      {| view := {| App.users := App.users s; App.favorites := nf;
                    App.isLoading := App.isLoading s |};
         disk := if setItem_ok env
                 then <[FAVORITES_KEY := JSON_stringify nf]> (disk m)
                 else disk m;
         log := if setItem_ok env
                then log m ++ [SetItem FAVORITES_KEY (JSON_stringify nf)]
                else (log m ++ [SetItem FAVORITES_KEY (JSON_stringify nf)])
                     ++ [ConsoleError (Some "Erreur de sauvegarde") StorageError] |}.
Proof.
  intros s nf. subst s nf.
  unfold dispatch, App.toggleFavorite, App.setFavorites, AsyncStorage_setItem,
    console_error, try_catch, bind, emit, set_state, set_disk, throw.
  simpl. destruct (setItem_ok env); reflexivity.
Qed.

Lemma HomeScreen_toggles_favorites calls (m : Machine HomeScreen.State) :
  HomeScreen.favorites (view (run_all (HomeScreen_toggles calls) m))
  = foldl newFavorites (HomeScreen.favorites (view m)) calls.*2.
Proof.
  revert m; induction calls as [|[env u] calls IH]; intros m; [reflexivity|].
  unfold run_all, HomeScreen_toggles in *. simpl.
  rewrite IH, HomeScreen_toggleFavorite_run. reflexivity.
Qed.

Lemma App_toggles_favorites calls (m : Machine App.State) :
  App.favorites (view (run_all (App_toggles calls) m))
  = foldl newFavorites (App.favorites (view m)) calls.*2.
Proof.
  revert m; induction calls as [|[env u] calls IH]; intros m; [reflexivity|].
  unfold run_all, App_toggles in *. simpl.
  rewrite IH, App_toggleFavorite_run. reflexivity.
Qed.

End ToggleFavorite.

Example toggled_odd_example : toggled_odd [3; 2; 2; 7] = {[3; 7]}.
Proof. apply (bool_decide_unpack _). vm_compute. exact I. Qed.

Example toggle_run_example :
  HomeScreen.favorites
    (view (run_all (HomeScreen_toggles [(env_ok, 3); (env_down, 2); (env_ok, 2); (env_ok, 7)])
             (home_with [1; 3])))
  = [1; 7].
Proof. reflexivity. Qed.

(** C1.  For every starting favourites list without duplicates and every
    finite sequence of [toggleFavorite] calls (whatever the storage answers
    during each), the final favourites list has no duplicates and is, as a
    set, the symmetric difference of the starting set and the set of the ids
    toggled an odd number of times; this holds for [HomeScreen] and for
    [App].  Starting from [1; 3], toggling 3 gives [1] and then toggling 2
    gives [1; 2]. *)
Theorem toggle_sequence_symmetric_difference :
  (∀ (m : Machine HomeScreen.State) (calls : list (Env * Z)),
     NoDup (HomeScreen.favorites (view m)) →
     let final := HomeScreen.favorites (view (run_all (HomeScreen_toggles calls) m)) in
     NoDup final
     ∧ list_to_set final
       = symmetric_difference (list_to_set (HomeScreen.favorites (view m)))
           (toggled_odd calls.*2))
  ∧ (∀ (m : Machine App.State) (calls : list (Env * Z)),
       NoDup (App.favorites (view m)) →
       let final := App.favorites (view (run_all (App_toggles calls) m)) in
       NoDup final
       ∧ list_to_set final
         = symmetric_difference (list_to_set (App.favorites (view m)))
             (toggled_odd calls.*2))
  ∧ (∀ (env env' : Env) (m : Machine HomeScreen.State),
       HomeScreen.favorites (view m) = [1; 3] →
       let m1 := settle (dispatch (HomeScreen.toggleFavorite env 3) m) in
       let m2 := settle (dispatch (HomeScreen.toggleFavorite env' 2) m1) in
       HomeScreen.favorites (view m1) = [1]
       ∧ HomeScreen.favorites (view m2) = [1; 2])
  ∧ (∀ (env env' : Env) (m : Machine App.State),
       App.favorites (view m) = [1; 3] →
       let m1 := settle (dispatch (App.toggleFavorite env 3) m) in
       let m2 := settle (dispatch (App.toggleFavorite env' 2) m1) in
       App.favorites (view m1) = [1]
       ∧ App.favorites (view m2) = [1; 2]).
Proof.
  split_and!.
  - intros m calls Hm final. subst final.
    rewrite HomeScreen_toggles_favorites. split.
    + now apply NoDup_foldl_newFavorites.
    + apply foldl_newFavorites_set.
  - intros m calls Hm final. subst final.
    rewrite App_toggles_favorites. split.
    + now apply NoDup_foldl_newFavorites.
    + apply foldl_newFavorites_set.
  - intros env env' m Hm m1 m2. subst m1 m2.
    rewrite !HomeScreen_toggleFavorite_run. simpl. rewrite Hm. split; reflexivity.
  - intros env env' m Hm m1 m2. subst m1 m2.
    rewrite !App_toggleFavorite_run. simpl. rewrite Hm. split; reflexivity.
Qed.

Lemma toggle_sequence_symmetric_difference_witness :
  NoDup [1; 3]
  ∧ (let final :=
       HomeScreen.favorites
         (view (run_all (HomeScreen_toggles [(env_ok, 3); (env_down, 2); (env_ok, 2); (env_ok, 7)])
                  (home_with [1; 3]))) in
     NoDup final
     ∧ list_to_set final
       = symmetric_difference (list_to_set [1; 3]) (toggled_odd [3; 2; 2; 7])).
Proof.
  assert (NoDup [1; 3]) as H by (apply (bool_decide_unpack _); exact I).
  split; [exact H |].
  exact (proj1 toggle_sequence_symmetric_difference (home_with [1; 3])
           [(env_ok, 3); (env_down, 2); (env_ok, 2); (env_ok, 7)] H).
Defined.

(** C10.  [toggleFavorite id] changes only the favourites cell: the other
    cells of the component keep their values.  In the favourites list the
    membership of [id] is flipped and the membership of every other id is
    kept; when [id] was present (however many times) no occurrence is left,
    and the other entries keep their order and multiplicity. *)
Theorem toggleFavorite_frame (env : Env) (u : Z) :
  (∀ m : Machine HomeScreen.State,
     let s := view m in
     let s' := view (settle (dispatch (HomeScreen.toggleFavorite env u) m)) in
     HomeScreen.users s' = HomeScreen.users s
     ∧ HomeScreen.isLoading s' = HomeScreen.isLoading s
     ∧ HomeScreen.showOnlyFavorites s' = HomeScreen.showOnlyFavorites s
     ∧ HomeScreen.newUserName s' = HomeScreen.newUserName s
     ∧ HomeScreen.newUserEmail s' = HomeScreen.newUserEmail s
     ∧ (∀ j, j ≠ u → (j ∈ HomeScreen.favorites s' ↔ j ∈ HomeScreen.favorites s))
     ∧ (u ∈ HomeScreen.favorites s' ↔ u ∉ HomeScreen.favorites s)
     ∧ (u ∈ HomeScreen.favorites s →
        (u ∉ HomeScreen.favorites s')
        ∧ HomeScreen.favorites s' = filter (λ j, j ≠ u) (HomeScreen.favorites s)))
  ∧ (∀ m : Machine App.State,
       let s := view m in
       let s' := view (settle (dispatch (App.toggleFavorite env u) m)) in
       App.users s' = App.users s
       ∧ App.isLoading s' = App.isLoading s
       ∧ (∀ j, j ≠ u → (j ∈ App.favorites s' ↔ j ∈ App.favorites s))
       ∧ (u ∈ App.favorites s' ↔ u ∉ App.favorites s)
       ∧ (u ∈ App.favorites s →
          (u ∉ App.favorites s')
          ∧ App.favorites s' = filter (λ j, j ≠ u) (App.favorites s))).
Proof.
  split; intros m s s'; subst s s';
    [rewrite HomeScreen_toggleFavorite_run | rewrite App_toggleFavorite_run];
    simpl; split_and!; try reflexivity.
  all: try (intros j Hj; rewrite elem_of_newFavorites; intuition congruence).
  all: try (rewrite elem_of_newFavorites; intuition congruence).
  all: intros Hu; split;
    [ rewrite elem_of_newFavorites; intuition congruence
    | unfold newFavorites; now rewrite decide_True by done ].
Qed.

(** C5.  [toggleFavorite] commits the new list to the component state
    before it attempts the write: the machine in which the write is
    attempted already shows the new list and has seen no storage call of
    this run.  When the write fails, the handler still returns, the
    component keeps the new list, the storage keeps its old contents, and
    the only trace of the failure is a console entry (no alert), so the
    component and the storage can disagree. *)
Theorem toggleFavorite_commit_then_persist (env : Env) (u : Z) :
  (∀ m : Machine HomeScreen.State,
     let nf := newFavorites (HomeScreen.favorites (view m)) u in
     (∃ m1, HomeScreen.setFavorites nf m = Ok () m1
            ∧ HomeScreen.favorites (view m1) = nf
            ∧ disk m1 = disk m ∧ log m1 = log m
            ∧ dispatch (HomeScreen.toggleFavorite env u) m
              = try_catch (HomeScreen.saveFavorites env nf)
                  (λ error, console_error (Some "Erreur de sauvegarde") error) m1)
     ∧ (setItem_ok env = false →
        ∃ m', dispatch (HomeScreen.toggleFavorite env u) m = Ok () m'
              ∧ HomeScreen.favorites (view m') = nf
              ∧ disk m' = disk m
              ∧ log m' = log m ++ [SetItem FAVORITES_KEY (JSON_stringify nf);
                                   ConsoleError (Some "Erreur de sauvegarde") StorageError]
              ∧ Forall (λ e, is_alert e = false) (drop (length (log m)) (log m'))))
  ∧ (∀ m : Machine App.State,
       let nf := newFavorites (App.favorites (view m)) u in
       (∃ m1, App.setFavorites nf m = Ok () m1
              ∧ App.favorites (view m1) = nf
              ∧ disk m1 = disk m ∧ log m1 = log m
              ∧ dispatch (App.toggleFavorite env u) m
                = try_catch
                    (AsyncStorage_setItem env FAVORITES_KEY (JSON_stringify nf))
                    (λ error, console_error (Some "Erreur de sauvegarde") error) m1)
       ∧ (setItem_ok env = false →
          ∃ m', dispatch (App.toggleFavorite env u) m = Ok () m'
                ∧ App.favorites (view m') = nf
                ∧ disk m' = disk m
                ∧ log m' = log m ++ [SetItem FAVORITES_KEY (JSON_stringify nf);
                                     ConsoleError (Some "Erreur de sauvegarde") StorageError]
                ∧ Forall (λ e, is_alert e = false) (drop (length (log m)) (log m'))))
  ∧ (let m' := settle (dispatch (HomeScreen.toggleFavorite env_down 5) (home_with [])) in
     HomeScreen.favorites (view m') = [5] ∧ disk m' !! FAVORITES_KEY = None).
Proof.
  split_and!.
  - intros m nf. split.
    + eexists. split; [reflexivity|]. split_and!; reflexivity.
    + intros Hfail. eexists. rewrite HomeScreen_toggleFavorite_run, Hfail.
      split; [reflexivity|]. cbn [view disk log]. split_and!; try reflexivity.
      * now rewrite <- app_assoc.
      * rewrite <- app_assoc, drop_app_length. repeat constructor.
  - intros m nf. split.
    + eexists. split; [reflexivity|]. split_and!; reflexivity.
    + intros Hfail. eexists. rewrite App_toggleFavorite_run, Hfail.
      split; [reflexivity|]. cbn [view disk log]. split_and!; try reflexivity.
      * now rewrite <- app_assoc.
      * rewrite <- app_assoc, drop_app_length. repeat constructor.
  - split; reflexivity.
Qed.

Lemma toggleFavorite_commit_then_persist_witness :
  setItem_ok env_down = false
  ∧ ∃ m', dispatch (HomeScreen.toggleFavorite env_down 2) (home_with [1]) = Ok () m'
          ∧ HomeScreen.favorites (view m') = [1; 2]
          ∧ disk m' = ∅.
Proof.
  split; [reflexivity|].
  destruct (proj2 (proj1 (toggleFavorite_commit_then_persist env_down 2)
                     (home_with [1])) eq_refl)
    as (m' & Hrun & Hfav & Hdisk & _).
  exists m'. split_and!; assumption.
Defined.

(** C6.  When the GET of [loadData] fails, the load-failure alert is shown,
    the storage is not read, the favourites cell (like the users cell and
    the storage) keeps its value, and [isLoading] ends false; the handler
    returns normally.  This holds for [HomeScreen] and for [App]. *)
Theorem loadData_get_failure (env : Env) :
  get_response env = None →
  (∀ m : Machine HomeScreen.State,
     ∃ m', dispatch (HomeScreen.loadData env) m = Ok () m'
           ∧ log m' = log m ++ [AxiosGet USERS_URL;
                                AlertShown "Erreur" (Text "Impossible de charger les données") [];
                                ConsoleError None NetworkError]
           ∧ Forall (λ e, is_storage_call e = false) (drop (length (log m)) (log m'))
           ∧ HomeScreen.favorites (view m') = HomeScreen.favorites (view m)
           ∧ HomeScreen.users (view m') = HomeScreen.users (view m)
           ∧ HomeScreen.isLoading (view m') = false
           ∧ disk m' = disk m)
  ∧ (∀ m : Machine App.State,
       ∃ m', dispatch (App.loadData env) m = Ok () m'
             ∧ log m' = log m ++ [AxiosGet USERS_URL;
                                  AlertShown "Erreur" (Text "Impossible de charger les données") [];
                                  ConsoleError None NetworkError]
             ∧ Forall (λ e, is_storage_call e = false) (drop (length (log m)) (log m'))
             ∧ App.favorites (view m') = App.favorites (view m)
             ∧ App.users (view m') = App.users (view m)
             ∧ App.isLoading (view m') = false
             ∧ disk m' = disk m).
Proof.
  intros Hget. split; intros m; eexists; run_handler; rewrite Hget;
    (split; [reflexivity|]); cbn [view disk log];
    rewrite <- !app_assoc; split_and!; try reflexivity;
    rewrite drop_app_length; repeat constructor.
Qed.

Lemma loadData_get_failure_witness :
  get_response env_down = None
  ∧ ∃ m', dispatch (HomeScreen.loadData env_down)
            {| view := HomeScreen.initial;
               disk := {[ FAVORITES_KEY := "[4,2]" ]};
               log := [] |} = Ok () m'
          ∧ HomeScreen.favorites (view m') = []
          ∧ HomeScreen.isLoading (view m') = false.
Proof.
  split; [reflexivity|].
  destruct (proj1 (loadData_get_failure env_down eq_refl)
              {| view := HomeScreen.initial;
                 disk := {[ FAVORITES_KEY := "[4,2]" ]};
                 log := [] |})
    as (m' & Hrun & _ & _ & Hfav & _ & Hload & _).
  exists m'. split_and!; assumption.
Defined.

(** ** [getFilteredUsers] *)

(** Among the sublists of [l] made of elements satisfying [P], the filtered
    list is the greatest. *)
Lemma sublist_filter_greatest {A} (P : A → Prop) `{!∀ x, Decision (P x)}
    (k l : list A) :
  sublist k l → Forall P k → sublist k (filter P l).
Proof.
  induction 1 as [|x k l Hkl IH|x k l Hkl IH]; intros HP.
  - constructor.
  - apply Forall_cons in HP as [Hx HP].
    rewrite filter_cons_True by done. constructor. now apply IH.
  - rewrite filter_cons. destruct (decide (P x)); [constructor|]; now apply IH.
Qed.

(** C2.  With the filter flag set, [getFilteredUsers] returns the users
    whose id is a favourite, in the order of the users list: the result is a
    subsequence of the users, all its members have a favourite id, and every
    subsequence of the users with that property is a subsequence of the
    result (so no qualifying user, and no repetition of one, is dropped).
    With the flag unset it returns the users list itself. *)
Theorem getFilteredUsers_subsequence (us : list User) (favs : list Z)
    (loading : bool) (nm em : jsstring) :
  let s flag :=
    {| HomeScreen.users := us; HomeScreen.favorites := favs;
       HomeScreen.isLoading := loading; HomeScreen.showOnlyFavorites := flag;
       HomeScreen.newUserName := nm; HomeScreen.newUserEmail := em |} in
  HomeScreen.getFilteredUsers (s false) = us
  ∧ sublist (HomeScreen.getFilteredUsers (s true)) us
  ∧ Forall (λ user, id user ∈ favs) (HomeScreen.getFilteredUsers (s true))
  ∧ (∀ user, user ∈ HomeScreen.getFilteredUsers (s true)
             ↔ user ∈ us ∧ id user ∈ favs)
  ∧ (∀ k, sublist k us → Forall (λ user, id user ∈ favs) k →
          sublist k (HomeScreen.getFilteredUsers (s true))).
Proof.
  intros s. unfold HomeScreen.getFilteredUsers. simpl. split_and!.
  - reflexivity.
  - apply sublist_filter.
  - apply Forall_forall. intros user Hu. now apply list_elem_of_filter in Hu.
  - intros user. rewrite list_elem_of_filter. tauto.
  - intros k Hk HP. now apply sublist_filter_greatest.
Qed.

(** ** [addUser] *)

(** C3.  When the name or the e-mail is empty once trimmed, [addUser] shows
    the validation alert and returns: that alert is the only platform call
    of the run (so no network call is issued), and the component state
    (users, favourites, both form fields) and the storage are unchanged. *)
Theorem addUser_validation_failure (env : Env) (m : Machine HomeScreen.State) :
  trim (HomeScreen.newUserName (view m)) = []
  ∨ trim (HomeScreen.newUserEmail (view m)) = [] →
  dispatch (HomeScreen.addUser env) m
  = Ok () {| view := view m; disk := disk m;
             log := log m ++ [AlertShown "Erreur"
                                (Text "Veuillez remplir tous les champs") []] |}
  ∧ Forall (λ e, is_network_call e = false)
      (drop (length (log m))
         (log (settle (dispatch (HomeScreen.addUser env) m)))).
Proof.
  intros Hempty.
  assert (dispatch (HomeScreen.addUser env) m
          = Ok () {| view := view m; disk := disk m;
                     log := log m ++ [AlertShown "Erreur"
                                        (Text "Veuillez remplir tous les champs") []] |})
    as Hrun.
  { run_handler. destruct Hempty as [-> | ->]; simpl; [reflexivity|].
    now rewrite orb_true_r. }
  rewrite Hrun. split; [reflexivity|].
  simpl. rewrite drop_app_length. repeat constructor.
Qed.

Lemma addUser_validation_failure_witness :
  let m := {| view := {| HomeScreen.users := []; HomeScreen.favorites := [1];
                         HomeScreen.isLoading := false;
                         HomeScreen.showOnlyFavorites := false;
                         HomeScreen.newUserName := js "";
                         HomeScreen.newUserEmail := js "x@x.com" |};
              disk := ∅; log := [] |} in
  (trim (HomeScreen.newUserName (view m)) = []
   ∨ trim (HomeScreen.newUserEmail (view m)) = [])
  ∧ dispatch (HomeScreen.addUser env_ok) m
    = Ok () {| view := view m; disk := disk m;
               log := [AlertShown "Erreur"
                         (Text "Veuillez remplir tous les champs") []] |}.
Proof.
  intros m.
  assert (trim (HomeScreen.newUserName (view m)) = []
          ∨ trim (HomeScreen.newUserEmail (view m)) = []) as H
    by (left; reflexivity).
  split; [exact H|].
  exact (proj1 (addUser_validation_failure env_ok m H)).
Defined.

(** C4.  When both fields are non-empty once trimmed and the POST succeeds,
    [addUser] sends the name and e-mail as typed, puts the record returned
    by the service at the front of the users list and resets both form
    fields to the empty string; the favourites, the flags and the storage
    are unchanged and the success alert names the returned record.  The
    record carries the id assigned by the service; it carries the submitted
    name and e-mail whenever the service echoes the body it received. *)
Theorem addUser_success (env : Env) (m : Machine HomeScreen.State) (newUser : User) :
  let s := view m in
  trim (HomeScreen.newUserName s) ≠ [] →
  trim (HomeScreen.newUserEmail s) ≠ [] →
  post_response env (HomeScreen.newUserName s) (HomeScreen.newUserEmail s)
  = Some newUser →
  ∃ m', dispatch (HomeScreen.addUser env) m = Ok () m'
        ∧ HomeScreen.users (view m') = newUser :: HomeScreen.users s
        ∧ HomeScreen.newUserName (view m') = []
        ∧ HomeScreen.newUserEmail (view m') = []
        ∧ HomeScreen.favorites (view m') = HomeScreen.favorites s
        ∧ HomeScreen.isLoading (view m') = HomeScreen.isLoading s
        ∧ HomeScreen.showOnlyFavorites (view m') = HomeScreen.showOnlyFavorites s
        ∧ disk m' = disk m
        ∧ log m' = log m ++ [AxiosPost USERS_URL (HomeScreen.newUserName s)
                               (HomeScreen.newUserEmail s);
                             AlertShown "Succès"
                               (UserAddedText (name newUser) (id newUser)) []]
        ∧ (name newUser = HomeScreen.newUserName s →
           email newUser = HomeScreen.newUserEmail s →
           HomeScreen.users (view m')
           = {| id := id newUser; name := HomeScreen.newUserName s;
                email := HomeScreen.newUserEmail s |} :: HomeScreen.users s).
Proof.
  intros s Hname Hemail Hpost. subst s. eexists. run_handler.
  destruct (trim (HomeScreen.newUserName (view m))) as [|c1 t1]; [done|].
  destruct (trim (HomeScreen.newUserEmail (view m))) as [|c2 t2]; [done|].
  simpl. rewrite Hpost. split; [reflexivity|]. cbn [view disk log].
  rewrite <- app_assoc. split_and!; try reflexivity.
  intros Hn He. simpl. destruct newUser as [i n e]; simpl in *. now subst.
Qed.

Lemma addUser_success_witness :
  let m := {| view := {| HomeScreen.users := [{| id := 1; name := js "Leanne";
                                                 email := js "l@x.com" |}];
                         HomeScreen.favorites := [1];
                         HomeScreen.isLoading := false;
                         HomeScreen.showOnlyFavorites := false;
                         HomeScreen.newUserName := js "Jane";
                         HomeScreen.newUserEmail := js "jane@x.com" |};
              disk := ∅; log := [] |} in
  trim (js "Jane") ≠ [] ∧ trim (js "jane@x.com") ≠ []
  ∧ ∃ m', dispatch (HomeScreen.addUser env_ok) m = Ok () m'
          ∧ HomeScreen.users (view m')
            = [ {| id := 11; name := js "Jane"; email := js "jane@x.com" |};
                {| id := 1; name := js "Leanne"; email := js "l@x.com" |} ]
          ∧ HomeScreen.newUserName (view m') = []
          ∧ HomeScreen.newUserEmail (view m') = [].
Proof.
  intros m.
  assert (trim (js "Jane") ≠ []) as Hn by (vm_compute; discriminate).
  assert (trim (js "jane@x.com") ≠ []) as He by (vm_compute; discriminate).
  split_and!; [exact Hn | exact He |].
  destruct (addUser_success env_ok m
              {| id := 11; name := js "Jane"; email := js "jane@x.com" |}
              Hn He eq_refl)
    as (m' & Hrun & Hus & Hnm & Hem & _).
  exists m'. split_and!; assumption.
Defined.

(** ** The favourites store *)

Section FavoritesStore.
Implicit Types (env : Env) (m : Machine HomeScreen.State).

Lemma saveFavorites_run env ids m :
  HomeScreen.saveFavorites env ids m
  = if setItem_ok env
    then Ok () {| view := view m;
                  disk := <[FAVORITES_KEY := JSON_stringify ids]> (disk m);
                  log := log m ++ [SetItem FAVORITES_KEY (JSON_stringify ids)] |}
    else Throw StorageError
           {| view := view m; disk := disk m;
              log := log m ++ [SetItem FAVORITES_KEY (JSON_stringify ids)] |}.
Proof. run_handler. now destruct (setItem_ok env). Qed.

Lemma clearFavorites_run env m :
  HomeScreen.clearFavorites env m
  = if removeItem_ok env
    then Ok () {| view := view m; disk := delete FAVORITES_KEY (disk m);
                  log := log m ++ [RemoveItem FAVORITES_KEY] |}
    else Throw StorageError
           {| view := view m; disk := disk m;
              log := log m ++ [RemoveItem FAVORITES_KEY] |}.
Proof. run_handler. now destruct (removeItem_ok env). Qed.

(** Reading the store when it holds the text written for [ids]. *)
Lemma loadFavorites_stored env ids m :
  getItem_ok env = true →
  disk m !! FAVORITES_KEY = Some (JSON_stringify ids) →
  HomeScreen.loadFavorites env m
  = Ok () {| view := {| HomeScreen.users := HomeScreen.users (view m);
                        HomeScreen.favorites := ids;
                        HomeScreen.isLoading := HomeScreen.isLoading (view m);
                        HomeScreen.showOnlyFavorites :=
                          HomeScreen.showOnlyFavorites (view m);
                        HomeScreen.newUserName := HomeScreen.newUserName (view m);
                        HomeScreen.newUserEmail := HomeScreen.newUserEmail (view m) |};
             disk := disk m;
             log := log m ++ [GetItem FAVORITES_KEY] |}.
Proof.
  intros Hget Hdisk. run_handler. rewrite Hget. cbn [disk].
  rewrite Hdisk. rewrite JSON_stringify_truthy, JSON_parse_stringify.
  reflexivity.
Qed.

(** Reading the store when the key is absent: nothing is committed. *)
Lemma loadFavorites_absent env m :
  getItem_ok env = true →
  disk m !! FAVORITES_KEY = None →
  HomeScreen.loadFavorites env m
  = Ok () {| view := view m; disk := disk m;
             log := log m ++ [GetItem FAVORITES_KEY] |}.
Proof.
  intros Hget Hdisk. run_handler. rewrite Hget. cbn [disk].
  now rewrite Hdisk.
Qed.

(** Whatever [loadData] meets, it leaves the storage as it was. *)
Lemma loadData_disk env m :
  disk (settle (dispatch (HomeScreen.loadData env) m)) = disk m.
Proof.
  run_handler. destruct (get_response env); [|reflexivity].
  destruct (getItem_ok env); [|reflexivity]. cbn [disk].
  destruct (disk m !! FAVORITES_KEY) as [stored|]; [|reflexivity].
  destruct (truthy_text stored); [|reflexivity].
  destruct (JSON_parse stored); reflexivity.
Qed.

(** With the key absent, [loadData] leaves the favourites as they were,
    whatever the outcome of its requests. *)
Lemma loadData_absent env m :
  disk m !! FAVORITES_KEY = None →
  HomeScreen.favorites (view (settle (dispatch (HomeScreen.loadData env) m)))
  = HomeScreen.favorites (view m).
Proof.
  intros Hdisk. run_handler. destruct (get_response env); [|reflexivity].
  destruct (getItem_ok env); [|reflexivity]. cbn [disk].
  now rewrite Hdisk.
Qed.

(** With the text of [ids] under the key, a [loadData] whose requests
    succeed commits [ids]. *)
Lemma loadData_stored env ids m us :
  get_response env = Some us →
  getItem_ok env = true →
  disk m !! FAVORITES_KEY = Some (JSON_stringify ids) →
  ∃ m', dispatch (HomeScreen.loadData env) m = Ok () m'
        ∧ HomeScreen.favorites (view m') = ids
        ∧ HomeScreen.users (view m') = us
        ∧ HomeScreen.isLoading (view m') = false.
Proof.
  intros Hus Hget Hdisk. eexists. run_handler. rewrite Hus, Hget. cbn [disk].
  rewrite Hdisk, JSON_stringify_truthy, JSON_parse_stringify.
  split; [reflexivity|]. split_and!; reflexivity.
Qed.

End FavoritesStore.

(** C8.  For every list of integer ids: after a successful write of the
    list (its JSON text under the fixed key), a read of the favourites from
    any machine whose storage is the one the write left, whatever its
    component state, commits a list equal to the saved one, hence equal to
    it as a set; so does a whole [loadData] whose requests succeed. *)
Theorem save_then_load_favorites (ids : list Z) (env1 env2 : Env)
    (m1 m2 : Machine HomeScreen.State) :
  setItem_ok env1 = true →
  getItem_ok env2 = true →
  disk m2 = disk (settle (HomeScreen.saveFavorites env1 ids m1)) →
  (∃ m3, HomeScreen.loadFavorites env2 m2 = Ok () m3
         ∧ HomeScreen.favorites (view m3) = ids
         ∧ list_to_set (HomeScreen.favorites (view m3)) =@{gset Z} list_to_set ids)
  ∧ (∀ us, get_response env2 = Some us →
           ∃ m3, dispatch (HomeScreen.loadData env2) m2 = Ok () m3
                 ∧ HomeScreen.favorites (view m3) = ids
                 ∧ list_to_set (HomeScreen.favorites (view m3))
                   =@{gset Z} list_to_set ids).
Proof.
  intros Hset Hget Hdisk.
  rewrite saveFavorites_run, Hset in Hdisk. cbn [settle disk] in Hdisk.
  assert (disk m2 !! FAVORITES_KEY = Some (JSON_stringify ids)) as Hkey
    by (rewrite Hdisk; apply lookup_insert_eq).
  split.
  - eexists. split; [exact (loadFavorites_stored env2 ids m2 Hget Hkey)|].
    split; reflexivity.
  - intros us Hus.
    destruct (loadData_stored env2 ids m2 us Hus Hget Hkey)
      as (m3 & Hrun & Hfav & _).
    exists m3. rewrite Hfav. split_and!; done.
Qed.

Lemma save_then_load_favorites_witness :
  setItem_ok env_ok = true ∧ getItem_ok env_ok = true
  ∧ ∃ m3, HomeScreen.loadFavorites env_ok
            (settle (HomeScreen.saveFavorites env_ok [3; -1; 0; 250] (home_with [7])))
          = Ok () m3
          ∧ HomeScreen.favorites (view m3) = [3; -1; 0; 250].
Proof.
  split_and!; [reflexivity | reflexivity |].
  destruct (proj1 (save_then_load_favorites [3; -1; 0; 250] env_ok env_ok
                     (home_with [7])
                     (settle (HomeScreen.saveFavorites env_ok [3; -1; 0; 250]
                                (home_with [7])))
                     eq_refl eq_refl eq_refl))
    as (m3 & Hrun & Hfav & _).
  exists m3. split; assumption.
Defined.

(** C9.  After a successful deletion of the key, in any machine whose
    storage is the one the deletion left the key is absent, a read of the
    key yields null and commits nothing, and [loadData] leaves the
    favourites cell as it was, whatever its requests meet.  In the
    component, where the confirmed clear also empties the favourites cell,
    the list is empty after the clear and still empty after a following
    [loadData]; so is the list of a freshly mounted screen. *)
Theorem clear_then_load_favorites (env1 env2 : Env)
    (m1 m2 : Machine HomeScreen.State) :
  removeItem_ok env1 = true →
  disk m2 = disk (settle (HomeScreen.clearFavorites env1 m1)) →
  disk m2 !! FAVORITES_KEY = None
  ∧ (getItem_ok env2 = true →
     AsyncStorage_getItem env2 FAVORITES_KEY m2
     = Ok None {| view := view m2; disk := disk m2;
                  log := log m2 ++ [GetItem FAVORITES_KEY] |}
     ∧ HomeScreen.loadFavorites env2 m2
       = Ok () {| view := view m2; disk := disk m2;
                  log := log m2 ++ [GetItem FAVORITES_KEY] |})
  ∧ HomeScreen.favorites (view (settle (dispatch (HomeScreen.loadData env2) m2)))
    = HomeScreen.favorites (view m2)
  ∧ (let cleared := settle (HomeScreen.run_callback ClearConfirmed env1 m1) in
     HomeScreen.favorites (view cleared) = []
     ∧ disk cleared !! FAVORITES_KEY = None
     ∧ HomeScreen.favorites
         (view (settle (dispatch (HomeScreen.loadData env2) cleared))) = [])
  ∧ (let mounted := {| view := HomeScreen.initial; disk := disk m2; log := [] |} in
     HomeScreen.favorites
       (view (settle (dispatch (HomeScreen.loadData env2) mounted))) = []).
Proof.
  intros Hrm Hdisk.
  rewrite clearFavorites_run, Hrm in Hdisk. cbn [settle disk] in Hdisk.
  assert (disk m2 !! FAVORITES_KEY = None) as Hkey
    by (rewrite Hdisk; apply lookup_delete_eq).
  split_and!.
  - exact Hkey.
  - intros Hget. split.
    + unfold AsyncStorage_getItem, bind, emit, read_disk. rewrite Hget.
      cbn [disk]. now rewrite Hkey.
    + now apply loadFavorites_absent.
  - now apply loadData_absent.
  - assert (HomeScreen.run_callback ClearConfirmed env1 m1
            = Ok () {| view := {| HomeScreen.users := HomeScreen.users (view m1);
                                  HomeScreen.favorites := [];
                                  HomeScreen.isLoading := HomeScreen.isLoading (view m1);
                                  HomeScreen.showOnlyFavorites :=
                                    HomeScreen.showOnlyFavorites (view m1);
                                  HomeScreen.newUserName := HomeScreen.newUserName (view m1);
                                  HomeScreen.newUserEmail := HomeScreen.newUserEmail (view m1) |};
                       disk := delete FAVORITES_KEY (disk m1);
                       log := (log m1 ++ [RemoveItem FAVORITES_KEY])
                              ++ [AlertShown "Succès"
                                    (Text "Tous les favoris ont été effacés") []] |})
      as -> by (run_handler; now rewrite Hrm).
    cbn zeta. cbn [settle view disk HomeScreen.favorites].
    split_and!; [reflexivity | apply lookup_delete_eq |].
    rewrite loadData_absent; [reflexivity | apply lookup_delete_eq].
  - cbn zeta. rewrite loadData_absent; [reflexivity | exact Hkey].
Qed.

Lemma clear_then_load_favorites_witness :
  let m1 := {| view := view (home_with [4; 2]);
               disk := {[ FAVORITES_KEY := "[4,2]" ]}; log := [] |} in
  let cleared := settle (HomeScreen.run_callback ClearConfirmed env_ok m1) in
  removeItem_ok env_ok = true
  ∧ disk cleared !! FAVORITES_KEY = None
  ∧ HomeScreen.favorites
      (view (settle (dispatch (HomeScreen.loadData env_ok) cleared))) = [].
Proof.
  intros m1 cleared.
  split; [reflexivity|].
  destruct (clear_then_load_favorites env_ok env_ok m1 cleared eq_refl eq_refl)
    as (_ & _ & _ & (_ & Hkey & Hload) & _).
  split; assumption.
Defined.

(** ** [clearAllFavorites] *)

Section ClearAllFavorites.
Implicit Types (env : Env) (m : Machine HomeScreen.State).

(** The handler only shows the confirmation dialog: two buttons, a cancel
    one without callback and a destructive one carrying the clearing
    callback; nothing is deleted or reset by the handler itself. *)
Lemma clearAllFavorites_shows_dialog env m :
  dispatch (HomeScreen.clearAllFavorites env) m
  = Ok () {| view := view m; disk := disk m;
             log := log m ++ [AlertShown "Confirmation"
                                (Text "Voulez-vous vraiment effacer tous les favoris ?")
                                HomeScreen.confirm_buttons] |}
  ∧ style <$> HomeScreen.confirm_buttons = [cancel; destructive]
  ∧ onPress <$> HomeScreen.confirm_buttons = [None; Some ClearConfirmed].
Proof. split_and!; reflexivity. Qed.

(** Pressing the cancel button changes nothing. *)
Lemma press_cancel env m (b : button) :
  b ∈ HomeScreen.confirm_buttons → style b = cancel →
  HomeScreen.press b env m = Ok () m.
Proof.
  unfold HomeScreen.confirm_buttons. intros Hb Hstyle.
  apply elem_of_cons in Hb as [-> | Hb]; [reflexivity|].
  apply list_elem_of_singleton in Hb as ->. discriminate Hstyle.
Qed.

(** Pressing the destructive button when the deletion succeeds: the key is
    deleted, the favourites cell is emptied, the success alert is shown. *)
Lemma press_confirm_success env m (b : button) :
  b ∈ HomeScreen.confirm_buttons → style b = destructive →
  removeItem_ok env = true →
  ∃ m', HomeScreen.press b env m = Ok () m'
        ∧ disk m' = delete FAVORITES_KEY (disk m)
        ∧ HomeScreen.favorites (view m') = []
        ∧ log m' = log m ++ [RemoveItem FAVORITES_KEY;
                             AlertShown "Succès"
                               (Text "Tous les favoris ont été effacés") []].
Proof.
  unfold HomeScreen.confirm_buttons. intros Hb Hstyle Hrm.
  apply elem_of_cons in Hb as [-> | Hb]; [discriminate Hstyle|].
  apply list_elem_of_singleton in Hb as ->.
  eexists. run_handler. cbn [onPress]. run_handler. rewrite Hrm.
  split; [reflexivity|]. cbn [view disk log HomeScreen.favorites].
  rewrite <- app_assoc. split_and!; reflexivity.
Qed.

End ClearAllFavorites.

(** C7, evaluated where the deletion fails.  The handler has shown the
    two-button dialog and returned, so its [catch] block is no longer in
    force when the destructive button is pressed: if the deletion then
    fails, the callback ends with an unhandled [StorageError], the only
    platform call it made is the failed deletion (no alert is shown), and
    the favourites cell and the storage keep their contents. *)
Theorem clearAllFavorites_deletion_failure_unnotified (env env' : Env)
    (m : Machine HomeScreen.State) :
  removeItem_ok env' = false →
  let shown := settle (dispatch (HomeScreen.clearAllFavorites env) m) in
  let confirm := {| text := "Effacer"; style := destructive;
                    onPress := Some ClearConfirmed |} in
  returned (dispatch (HomeScreen.clearAllFavorites env) m) = true
  ∧ confirm ∈ HomeScreen.confirm_buttons
  ∧ HomeScreen.press confirm env' shown
    = Throw StorageError
        {| view := view m; disk := disk m;
           log := log shown ++ [RemoveItem FAVORITES_KEY] |}
  ∧ Forall (λ e, is_alert e = false)
      (drop (length (log shown))
         (log (settle (HomeScreen.press confirm env' shown)))).
Proof.
  intros Hrm shown confirm.
  assert (HomeScreen.press confirm env' shown
          = Throw StorageError
              {| view := view m; disk := disk m;
                 log := log shown ++ [RemoveItem FAVORITES_KEY] |}) as Hpress.
  { subst confirm. run_handler. cbn [onPress]. run_handler.
    now rewrite Hrm. }
  split_and!.
  - reflexivity.
  - subst confirm. unfold HomeScreen.confirm_buttons.
    apply elem_of_cons; right. apply list_elem_of_singleton. reflexivity.
  - exact Hpress.
  - rewrite Hpress. cbn [settle log]. rewrite drop_app_length.
    repeat constructor.
Qed.

Lemma clearAllFavorites_deletion_failure_unnotified_witness :
  let m := {| view := view (home_with [4; 2]);
              disk := {[ FAVORITES_KEY := "[4,2]" ]}; log := [] |} in
  let shown := settle (dispatch (HomeScreen.clearAllFavorites env_ok) m) in
  let confirm := {| text := "Effacer"; style := destructive;
                    onPress := Some ClearConfirmed |} in
  removeItem_ok env_down = false
  ∧ HomeScreen.press confirm env_down shown
    = Throw StorageError
        {| view := view m; disk := disk m;
           log := log shown ++ [RemoveItem FAVORITES_KEY] |}.
Proof.
  intros m shown confirm. split; [reflexivity|].
  exact (proj1 (proj2 (proj2
           (clearAllFavorites_deletion_failure_unnotified env_ok env_down m eq_refl)))).
Defined.

(** * Further properties of the components *)

(** ** Toggling twice, and in another order *)

Section ToggleAlgebra.
Implicit Types (l ids : list Z) (x u v : Z).

Lemma newFavorites_absent l u : u ∉ l → newFavorites l u = l ++ [u].
Proof. intros H. unfold newFavorites. now rewrite decide_False. Qed.

Lemma newFavorites_present l u :
  u ∈ l → newFavorites l u = filter (λ x, x ≠ u) l.
Proof. intros H. unfold newFavorites. now rewrite decide_True. Qed.

Lemma filter_ne_absent l u : u ∉ l → filter (λ x, x ≠ u) l = l.
Proof.
  induction l as [|y l IH]; intros H; [reflexivity|].
  apply not_elem_of_cons in H as [Hy Hl].
  rewrite filter_cons_True by congruence. now rewrite IH.
Qed.

Lemma newFavorites_twice_absent l u :
  u ∉ l → newFavorites (newFavorites l u) u = l.
Proof.
  intros H. rewrite (newFavorites_absent l u H).
  rewrite newFavorites_present by (apply elem_of_app; right; now left).
  rewrite filter_app, filter_ne_absent by done.
  rewrite filter_cons_False by tauto. apply app_nil_r.
Qed.

Lemma newFavorites_twice l u :
  NoDup l → newFavorites (newFavorites l u) u ≡ₚ l.
Proof.
  intros Hl. destruct (decide (u ∈ l)) as [Hin|Hout].
  - apply NoDup_Permutation; [now do 2 apply NoDup_newFavorites | done |].
    intros x. rewrite !elem_of_newFavorites.
    destruct (decide (x = u)); intuition congruence.
  - now rewrite newFavorites_twice_absent.
Qed.

Lemma newFavorites_Permutation l l' u :
  l ≡ₚ l' → newFavorites l u ≡ₚ newFavorites l' u.
Proof.
  intros H. unfold newFavorites.
  destruct (decide (u ∈ l)) as [Hin|Hout].
  - rewrite decide_True by now rewrite <- H. now rewrite H.
  - rewrite decide_False by now rewrite <- H. now rewrite H.
Qed.

Lemma foldl_newFavorites_Permutation ids l l' :
  l ≡ₚ l' → foldl newFavorites l ids ≡ₚ foldl newFavorites l' ids.
Proof.
  revert l l'; induction ids as [|u ids IH]; intros l l' H; [done|].
  simpl. now apply IH, newFavorites_Permutation.
Qed.

Lemma newFavorites_swap l u v :
  newFavorites (newFavorites l u) v ≡ₚ newFavorites (newFavorites l v) u.
Proof.
  destruct (decide (u = v)) as [->|Hne]; [done|].
  destruct (decide (u ∈ l)) as [Hu|Hu], (decide (v ∈ l)) as [Hv|Hv].
  - rewrite (newFavorites_present l u Hu), (newFavorites_present l v Hv).
    rewrite !newFavorites_present
      by (apply list_elem_of_filter; split; [congruence | done]).
    now rewrite list_filter_filter, (list_filter_filter (λ x, x ≠ u)),
      (list_filter_iff (λ x, x ≠ v ∧ x ≠ u) (λ x, x ≠ u ∧ x ≠ v)) by tauto.
  - rewrite (newFavorites_present l u Hu), (newFavorites_absent l v Hv).
    rewrite newFavorites_absent
      by (rewrite list_elem_of_filter; tauto).
    rewrite newFavorites_present by (apply elem_of_app; now left).
    rewrite filter_app, filter_cons_True by congruence. done.
  - rewrite (newFavorites_absent l u Hu), (newFavorites_present l v Hv).
    rewrite newFavorites_present by (apply elem_of_app; now left).
    rewrite newFavorites_absent
      by (rewrite list_elem_of_filter; tauto).
    rewrite filter_app, filter_cons_True by congruence. done.
  - rewrite (newFavorites_absent l u Hu), (newFavorites_absent l v Hv).
    rewrite !newFavorites_absent
      by (rewrite elem_of_app, list_elem_of_singleton; intuition congruence).
    rewrite <- !app_assoc. apply Permutation_app_head. simpl. apply perm_swap.
Qed.

Lemma foldl_newFavorites_order ids ids' l :
  ids ≡ₚ ids' → foldl newFavorites l ids ≡ₚ foldl newFavorites l ids'.
Proof.
  intros H. revert l.
  induction H as [|u ids ids' H IH|u v ids|ids1 ids2 ids3 H1 IH1 H2 IH2];
    intros l.
  - done.
  - simpl. apply IH.
  - simpl. apply foldl_newFavorites_Permutation, newFavorites_swap.
  - now rewrite IH1.
Qed.

End ToggleAlgebra.

(** X1.  Pressing the same star twice gives the favourites back: when the
    list has no duplicates, the list after two [toggleFavorite] calls on one
    id is a permutation of the list before, and it is the very same list
    when the id was not a favourite.  (When it was, the id moves to the end
    of the list.)  For [HomeScreen] and [App], whatever the storage answers. *)
Theorem toggleFavorite_twice (env env' : Env) (u : Z) :
  (∀ m : Machine HomeScreen.State,
     NoDup (HomeScreen.favorites (view m)) →
     let l := HomeScreen.favorites (view m) in
     let l'' := HomeScreen.favorites
                  (view (run_all (HomeScreen_toggles [(env, u); (env', u)]) m)) in
     l'' ≡ₚ l
     ∧ (u ∉ l → l'' = l)
     ∧ (u ∈ l → l'' = filter (λ x, x ≠ u) l ++ [u]))
  ∧ (∀ m : Machine App.State,
       NoDup (App.favorites (view m)) →
       let l := App.favorites (view m) in
       let l'' := App.favorites
                    (view (run_all (App_toggles [(env, u); (env', u)]) m)) in
       l'' ≡ₚ l
       ∧ (u ∉ l → l'' = l)
       ∧ (u ∈ l → l'' = filter (λ x, x ≠ u) l ++ [u])).
Proof.
  split; intros m Hm l l''; subst l l'';
    [rewrite HomeScreen_toggles_favorites | rewrite App_toggles_favorites];
    simpl; (split_and!;
      [ now apply newFavorites_twice
      | apply newFavorites_twice_absent
      | intros Hu; rewrite (newFavorites_present _ u Hu);
        apply newFavorites_absent; rewrite list_elem_of_filter; tauto ]).
Qed.

Lemma toggleFavorite_twice_witness :
  NoDup [4; 9]
  ∧ HomeScreen.favorites
      (view (run_all (HomeScreen_toggles [(env_ok, 4); (env_down, 4)])
               (home_with [4; 9])))
    ≡ₚ [4; 9].
Proof.
  assert (NoDup [4; 9]) as H by (apply (bool_decide_unpack _); exact I).
  split; [exact H|].
  exact (proj1 (proj1 (toggleFavorite_twice env_ok env_down 4) (home_with [4; 9]) H)).
Defined.

(** X2.  The favourites reached by a sequence of [toggleFavorite] calls do
    not depend on the order of the calls, up to the order of the list: two
    sequences that toggle the same ids the same number of times, from the
    same list (duplicates or not), end in lists that are permutations of
    each other.  For [HomeScreen] and [App]. *)
Theorem toggle_order_irrelevant (calls calls' : list (Env * Z)) :
  calls.*2 ≡ₚ calls'.*2 →
  (∀ m : Machine HomeScreen.State,
     HomeScreen.favorites (view (run_all (HomeScreen_toggles calls) m))
     ≡ₚ HomeScreen.favorites (view (run_all (HomeScreen_toggles calls') m)))
  ∧ (∀ m : Machine App.State,
       App.favorites (view (run_all (App_toggles calls) m))
       ≡ₚ App.favorites (view (run_all (App_toggles calls') m))).
Proof.
  intros H. split; intros m;
    [rewrite !HomeScreen_toggles_favorites | rewrite !App_toggles_favorites];
    now apply foldl_newFavorites_order.
Qed.

Lemma toggle_order_irrelevant_witness :
  [(env_ok, 5); (env_down, 1); (env_ok, 8)].*2 ≡ₚ [(env_ok, 1); (env_ok, 8); (env_ok, 5)].*2
  ∧ HomeScreen.favorites
      (view (run_all (HomeScreen_toggles [(env_ok, 5); (env_down, 1); (env_ok, 8)])
               (home_with [1; 3])))
    ≡ₚ HomeScreen.favorites
         (view (run_all (HomeScreen_toggles [(env_ok, 1); (env_ok, 8); (env_ok, 5)])
                  (home_with [1; 3]))).
Proof.
  assert ([(env_ok, 5); (env_down, 1); (env_ok, 8)].*2
          ≡ₚ [(env_ok, 1); (env_ok, 8); (env_ok, 5)].*2) as H.
  { simpl. apply Permutation_cons_append. }
  split; [exact H|].
  exact (proj1 (toggle_order_irrelevant _ _ H) (home_with [1; 3])).
Defined.

(** ** [loadData], the other paths *)

(** X3.  [loadData] commits the users before it reads the favourites: when
    the GET succeeds and the read of the storage fails, the users list is
    replaced by the reply, the favourites keep their value, the load-failure
    alert is shown all the same, and [isLoading] ends false. *)
Theorem loadData_read_failure (env : Env) (m : Machine HomeScreen.State)
    (us : list User) :
  get_response env = Some us →
  getItem_ok env = false →
  ∃ m', dispatch (HomeScreen.loadData env) m = Ok () m'
        ∧ HomeScreen.users (view m') = us
        ∧ HomeScreen.favorites (view m') = HomeScreen.favorites (view m)
        ∧ HomeScreen.isLoading (view m') = false
        ∧ disk m' = disk m
        ∧ calls_of m m'
          = [AxiosGet USERS_URL; GetItem FAVORITES_KEY;
             AlertShown "Erreur" (Text "Impossible de charger les données") [];
             ConsoleError None StorageError].
Proof.
  intros Hus Hget. eexists. run_handler. rewrite Hus, Hget.
  split; [reflexivity|]. unfold calls_of. cbn [view disk log].
  split_and!; try reflexivity.
  rewrite <- !app_assoc. apply drop_app_length.
Qed.

Lemma loadData_read_failure_witness :
  let env := {| get_response := Some [{| id := 1; name := js "Leanne"; email := js "l@x.com" |}];
                post_response := λ _ _, None;
                getItem_ok := false; setItem_ok := true; removeItem_ok := true |} in
  get_response env = Some [{| id := 1; name := js "Leanne"; email := js "l@x.com" |}]
  ∧ getItem_ok env = false
  ∧ ∃ m', dispatch (HomeScreen.loadData env)
            {| view := HomeScreen.initial;
               disk := {[ FAVORITES_KEY := "[1]" ]}; log := [] |} = Ok () m'
          ∧ HomeScreen.users (view m')
            = [{| id := 1; name := js "Leanne"; email := js "l@x.com" |}]
          ∧ HomeScreen.favorites (view m') = [].
Proof.
  intros env. split_and!; [reflexivity | reflexivity |].
  destruct (loadData_read_failure env
              {| view := HomeScreen.initial;
                 disk := {[ FAVORITES_KEY := "[1]" ]}; log := [] |}
              _ eq_refl eq_refl)
    as (m' & Hrun & Hus & Hfav & _).
  exists m'. split_and!; assumption.
Defined.

(** X4.  An empty stored text is treated like a missing key: when the GET
    and the read succeed and the text under the key is the empty string,
    [loadData] parses nothing, shows no alert, keeps the favourites and
    commits the users. *)
Theorem loadData_empty_text (env : Env) (m : Machine HomeScreen.State)
    (us : list User) :
  get_response env = Some us →
  getItem_ok env = true →
  disk m !! FAVORITES_KEY = Some "" →
  ∃ m', dispatch (HomeScreen.loadData env) m = Ok () m'
        ∧ HomeScreen.users (view m') = us
        ∧ HomeScreen.favorites (view m') = HomeScreen.favorites (view m)
        ∧ HomeScreen.isLoading (view m') = false
        ∧ calls_of m m' = [AxiosGet USERS_URL; GetItem FAVORITES_KEY].
Proof.
  intros Hus Hget Hdisk. eexists. run_handler. rewrite Hus, Hget.
  cbn [disk]. rewrite Hdisk. cbn [truthy_text].
  split; [reflexivity|]. unfold calls_of. cbn [view disk log].
  split_and!; try reflexivity.
  rewrite <- !app_assoc. apply drop_app_length.
Qed.

Lemma loadData_empty_text_witness :
  get_response env_ok = Some [] ∧ getItem_ok env_ok = true
  ∧ ∃ m', dispatch (HomeScreen.loadData env_ok)
            {| view := view (home_with [6]);
               disk := {[ FAVORITES_KEY := "" ]}; log := [] |} = Ok () m'
          ∧ HomeScreen.favorites (view m') = [6].
Proof.
  split_and!; [reflexivity | reflexivity |].
  assert (({[ FAVORITES_KEY := "" ]} : gmap string string) !! FAVORITES_KEY
          = Some "") as Hkey by apply lookup_singleton_eq.
  destruct (loadData_empty_text env_ok
              {| view := view (home_with [6]);
                 disk := {[ FAVORITES_KEY := "" ]}; log := [] |}
              [] eq_refl eq_refl Hkey)
    as (m' & Hrun & _ & Hfav & _).
  exists m'. split; assumption.
Defined.

(** X5.  Whatever the service and the storage answer, and whatever the
    stored text is, [loadData] returns normally with [isLoading] false; it
    never writes to the storage, never posts, issues exactly one GET and at
    most one read, and leaves the filter flag and the form fields alone.
    For [HomeScreen] and [App]. *)
Theorem loadData_always_settles (env : Env) :
  (∀ m : Machine HomeScreen.State,
     let r := dispatch (HomeScreen.loadData env) m in
     returned r = true
     ∧ HomeScreen.isLoading (view (settle r)) = false
     ∧ disk (settle r) = disk m
     ∧ HomeScreen.showOnlyFavorites (view (settle r))
       = HomeScreen.showOnlyFavorites (view m)
     ∧ HomeScreen.newUserName (view (settle r)) = HomeScreen.newUserName (view m)
     ∧ HomeScreen.newUserEmail (view (settle r)) = HomeScreen.newUserEmail (view m)
     ∧ filter (λ e, is_network_call e = true) (calls_of m (settle r))
       = [AxiosGet USERS_URL]
     ∧ (filter (λ e, is_storage_call e = true) (calls_of m (settle r)) = []
        ∨ filter (λ e, is_storage_call e = true) (calls_of m (settle r))
          = [GetItem FAVORITES_KEY]))
  ∧ (∀ m : Machine App.State,
       let r := dispatch (App.loadData env) m in
       returned r = true
       ∧ App.isLoading (view (settle r)) = false
       ∧ disk (settle r) = disk m
       ∧ filter (λ e, is_network_call e = true) (calls_of m (settle r))
         = [AxiosGet USERS_URL]
       ∧ (filter (λ e, is_storage_call e = true) (calls_of m (settle r)) = []
          ∨ filter (λ e, is_storage_call e = true) (calls_of m (settle r))
            = [GetItem FAVORITES_KEY])).
Proof.
  split; intros m r; subst r; unfold calls_of; run_handler;
    (destruct (get_response env) as [us|];
     [ destruct (getItem_ok env);
       [ cbn [disk]; destruct (disk m !! FAVORITES_KEY) as [stored|];
         [ destruct (truthy_text stored);
           [ destruct (JSON_parse stored) |] |] |] |]);
    cbn [settle returned view disk log
         HomeScreen.isLoading HomeScreen.showOnlyFavorites
         HomeScreen.newUserName HomeScreen.newUserEmail App.isLoading];
    rewrite <- ?app_assoc, drop_app_length;
    split_and!; try reflexivity; (left; reflexivity) || (right; reflexivity).
Qed.

(** ** [addUser], the other paths *)

Section Trim.
Implicit Types (s t : jsstring) (c : code_unit).

Lemma trimStart_blank s : trimStart s = [] ↔ blank s.
Proof.
  unfold blank. induction s as [|c s IH]; simpl.
  - split; [constructor | reflexivity].
  - destruct (is_white_space c) eqn:Hc.
    + rewrite IH. split; [now constructor | now inversion 1].
    + split; [discriminate | inversion 1; congruence].
Qed.

Lemma trimStart_head s c t : trimStart s = c :: t → is_white_space c = false.
Proof.
  induction s as [|c' s IH]; simpl; [discriminate|].
  destruct (is_white_space c') eqn:Hc; [exact IH|].
  intros [= -> _]. exact Hc.
Qed.

Lemma blank_rev s : blank (rev s) ↔ blank s.
Proof.
  unfold blank. split; intros H.
  - rewrite <- (rev_involutive s). now apply Forall_rev.
  - now apply Forall_rev.
Qed.

(** A text is empty once trimmed exactly when it is made of white space. *)
Lemma trim_blank s : trim s = [] ↔ blank s.
Proof.
  unfold trim, trimEnd. split.
  - intros H. apply (f_equal (@rev _)) in H. rewrite rev_involutive in H.
    simpl in H. apply (proj1 (trimStart_blank _)) in H.
    apply (proj1 (blank_rev _)) in H.
    destruct (trimStart s) as [|c t] eqn:E; [now apply trimStart_blank|].
    apply trimStart_head in E. unfold blank in H.
    apply Forall_cons in H as [Hc _]. simpl in Hc. congruence.
  - intros H. apply trimStart_blank in H. now rewrite H.
Qed.

End Trim.

(** X6.  [addUser] posts exactly when both fields hold something else than
    white space: if the name or the e-mail is made of white space only
    (ECMAScript white space and line terminators, the empty text included),
    the run makes no network call; otherwise its one network call is a POST
    to the users URL whose body carries the two fields as typed, untrimmed. *)
Theorem addUser_posts_iff_not_blank (env : Env) (m : Machine HomeScreen.State) :
  let nm := HomeScreen.newUserName (view m) in
  let em := HomeScreen.newUserEmail (view m) in
  let calls := calls_of m (settle (dispatch (HomeScreen.addUser env) m)) in
  (blank nm ∨ blank em → filter (λ e, is_network_call e = true) calls = [])
  ∧ (¬ blank nm → ¬ blank em →
     filter (λ e, is_network_call e = true) calls = [AxiosPost USERS_URL nm em]).
Proof.
  intros nm em calls. subst nm em calls. unfold calls_of.
  rewrite <- !trim_blank. run_handler. split.
  - intros [-> | ->]; cbn [truthy negb orb]; rewrite ?orb_true_r;
      cbn [settle log]; now rewrite drop_app_length.
  - intros Hn He.
    destruct (trim (HomeScreen.newUserName (view m))); [done|].
    destruct (trim (HomeScreen.newUserEmail (view m))); [done|].
    cbn [truthy negb orb].
    destruct (post_response env _ _); cbn [settle log];
      rewrite <- ?app_assoc, drop_app_length; reflexivity.
Qed.

Lemma addUser_posts_iff_not_blank_witness :
  let m := {| view := {| HomeScreen.users := []; HomeScreen.favorites := [];
                         HomeScreen.isLoading := false;
                         HomeScreen.showOnlyFavorites := false;
                         HomeScreen.newUserName := js " Jane ";
                         HomeScreen.newUserEmail := js "jane@x.com" |};
              disk := ∅; log := [] |} in
  ¬ blank (js " Jane ") ∧ ¬ blank (js "jane@x.com")
  ∧ filter (λ e, is_network_call e = true)
      (calls_of m (settle (dispatch (HomeScreen.addUser env_ok) m)))
    = [AxiosPost USERS_URL (js " Jane ") (js "jane@x.com")].
Proof.
  intros m.
  assert (¬ blank (js " Jane ")) as Hn
    by (rewrite <- trim_blank; vm_compute; discriminate).
  assert (¬ blank (js "jane@x.com")) as He
    by (rewrite <- trim_blank; vm_compute; discriminate).
  split_and!; [exact Hn | exact He |].
  exact (proj2 (addUser_posts_iff_not_blank env_ok m) Hn He).
Defined.

(** X7.  When the POST fails, [addUser] returns normally after a console
    entry and the add-failure alert; nothing is added to the users, and the
    form fields keep what was typed (the whole component state and the
    storage are unchanged). *)
Theorem addUser_post_failure (env : Env) (m : Machine HomeScreen.State) :
  ¬ blank (HomeScreen.newUserName (view m)) →
  ¬ blank (HomeScreen.newUserEmail (view m)) →
  post_response env (HomeScreen.newUserName (view m))
    (HomeScreen.newUserEmail (view m)) = None →
  dispatch (HomeScreen.addUser env) m
  = Ok () {| view := view m; disk := disk m;
             log := log m
                    ++ [AxiosPost USERS_URL (HomeScreen.newUserName (view m))
                          (HomeScreen.newUserEmail (view m));
                        ConsoleError (Some "Erreur lors de l'ajout") NetworkError;
                        AlertShown "Erreur"
                          (Text "Impossible d'ajouter l'utilisateur") []] |}.
Proof.
  rewrite <- !trim_blank. intros Hn He Hpost. run_handler.
  destruct (trim (HomeScreen.newUserName (view m))); [done|].
  destruct (trim (HomeScreen.newUserEmail (view m))); [done|].
  cbn [truthy negb orb]. rewrite Hpost. cbn [view disk log].
  now rewrite <- !app_assoc.
Qed.

Lemma addUser_post_failure_witness :
  let m := {| view := {| HomeScreen.users := []; HomeScreen.favorites := [2];
                         HomeScreen.isLoading := false;
                         HomeScreen.showOnlyFavorites := true;
                         HomeScreen.newUserName := js "Jane";
                         HomeScreen.newUserEmail := js "jane@x.com" |};
              disk := ∅; log := [] |} in
  ¬ blank (js "Jane") ∧ ¬ blank (js "jane@x.com")
  ∧ view (settle (dispatch (HomeScreen.addUser env_down) m)) = view m.
Proof.
  intros m.
  assert (¬ blank (js "Jane")) as Hn
    by (rewrite <- trim_blank; vm_compute; discriminate).
  assert (¬ blank (js "jane@x.com")) as He
    by (rewrite <- trim_blank; vm_compute; discriminate).
  split_and!; [exact Hn | exact He |].
  now rewrite (addUser_post_failure env_down m Hn He eq_refl).
Defined.

(** X8.  Whatever happens, [addUser] returns normally, makes no storage
    call, and leaves the favourites, the storage, the loading flag and the
    filter flag as they were: a user added on the screen is never
    persisted. *)
Theorem addUser_frame (env : Env) (m : Machine HomeScreen.State) :
  let r := dispatch (HomeScreen.addUser env) m in
  returned r = true
  ∧ HomeScreen.favorites (view (settle r)) = HomeScreen.favorites (view m)
  ∧ HomeScreen.isLoading (view (settle r)) = HomeScreen.isLoading (view m)
  ∧ HomeScreen.showOnlyFavorites (view (settle r))
    = HomeScreen.showOnlyFavorites (view m)
  ∧ disk (settle r) = disk m
  ∧ filter (λ e, is_storage_call e = true) (calls_of m (settle r)) = [].
Proof.
  intros r. subst r. unfold calls_of. run_handler. split_run;
    cbn [settle returned view disk log HomeScreen.favorites
         HomeScreen.isLoading HomeScreen.showOnlyFavorites];
    rewrite <- ?app_assoc, drop_app_length; split_and!; reflexivity.
Qed.

(** ** The screen as a whole: what an action can and cannot do *)

Section Actions.
Implicit Types (env : Env) (a : HomeScreen.action) (m : Machine HomeScreen.State).

(** The favourites and the storage after an action, case by case. *)
Lemma perform_effect env a m :
  let m' := settle (HomeScreen.perform env a m) in
  match a with
  | HomeScreen.PressStar u =>
      HomeScreen.favorites (view m') = newFavorites (HomeScreen.favorites (view m)) u
      ∧ disk m' = if setItem_ok env
                  then <[FAVORITES_KEY :=
                           JSON_stringify (newFavorites (HomeScreen.favorites (view m)) u)]>
                         (disk m)
                  else disk m
  | HomeScreen.PressButton b =>
      match onPress b with
      | Some ClearConfirmed =>
          if removeItem_ok env
          then HomeScreen.favorites (view m') = []
               ∧ disk m' = delete FAVORITES_KEY (disk m)
          else HomeScreen.favorites (view m') = HomeScreen.favorites (view m)
               ∧ disk m' = disk m
      | None => m' = m
      end
  | _ => HomeScreen.favorites (view m') = HomeScreen.favorites (view m)
         ∧ disk m' = disk m
  end.
Proof.
  destruct a; cbn zeta; run_action; split_run;
    cbn [settle view disk HomeScreen.favorites];
    first [ split; reflexivity | destruct m; reflexivity ].
Qed.




Lemma perform_synced env a m :
  synced m →
  match a with
  | HomeScreen.PressStar _ => setItem_ok env = true
  | _ => True
  end →
  synced (settle (HomeScreen.perform env a m)).
Proof.
  intros Hm Hok. pose proof (perform_effect env a m) as H.
  cbn zeta in H. unfold synced in *.
  destruct a as [| | | | |u|b];
    try (destruct H as [-> ->]; exact Hm).
  - destruct H as [-> ->]. rewrite Hok. now rewrite lookup_insert_eq.
  - destruct (onPress b) as [[]|].
    + destruct (removeItem_ok env); destruct H as [-> ->].
      * now rewrite lookup_delete_eq.
      * exact Hm.
    + now rewrite H.
Qed.

Lemma session_synced steps m :
  writes_succeed steps → synced m → synced (session steps m).
Proof.
  revert m; induction steps as [|[env a] steps IH]; intros m Hok Hm; [exact Hm|].
  apply Forall_cons in Hok as [Hstep Hok].
  apply IH; [exact Hok|]. now apply perform_synced.
Qed.

(** A mount whose requests succeed, over a storage in line with a list,
    shows that list. *)
Lemma mount_synced env (stored : gmap string string) (favs : list Z) (us : list User) :
  get_response env = Some us → getItem_ok env = true →
  match stored !! FAVORITES_KEY with
  | Some text => text = JSON_stringify favs
  | None => favs = []
  end →
  HomeScreen.favorites (view (settle (HomeScreen.mount env stored))) = favs.
Proof.
  intros Hus Hget Hsync. run_action. rewrite Hus, Hget. cbn [disk].
  destruct (stored !! FAVORITES_KEY) as [text|].
  - subst text. now rewrite JSON_stringify_truthy, JSON_parse_stringify.
  - now subst favs.
Qed.

End Actions.

(** X9.  The only way an action of the screen ends in an unhandled
    exception is the confirming button of the clearing dialog when the
    deletion fails; every other action, in every environment, returns
    normally (its failures are caught inside the handler). *)
Theorem only_clear_callback_throws (env : Env) (a : HomeScreen.action)
    (m : Machine HomeScreen.State) :
  returned (HomeScreen.perform env a m) = false
  ↔ (∃ b, a = HomeScreen.PressButton b ∧ onPress b = Some ClearConfirmed)
    ∧ removeItem_ok env = false.
Proof.
  assert (returned (HomeScreen.perform env a m)
          = match a with
            | HomeScreen.PressButton b =>
                match onPress b with
                | Some ClearConfirmed => removeItem_ok env
                | None => true
                end
            | _ => true
            end) as ->
    by (destruct a; run_action; split_run; reflexivity).
  destruct a as [| | | | |u|b];
    try (split; [discriminate | intros [(b' & [=] & _) _]]).
  destruct (onPress b) as [[]|] eqn:Hb.
  - split; [intros H; split; [exists b; split; [reflexivity | exact Hb] | exact H]
           | intros [_ H]; exact H].
  - split; [discriminate | intros [(b' & [= <-] & Hb') _]; congruence].
Qed.

(** X10.  No action of the screen, and no mount, touches a storage key
    other than the favourites key; only a star press and a dialog button can
    change the storage at all. *)
Theorem storage_frame (env : Env) (a : HomeScreen.action)
    (m : Machine HomeScreen.State) (stored : gmap string string) :
  (∀ key, key ≠ FAVORITES_KEY →
          disk (settle (HomeScreen.perform env a m)) !! key = disk m !! key)
  ∧ match a with
    | HomeScreen.PressStar _ | HomeScreen.PressButton _ => True
    | _ => disk (settle (HomeScreen.perform env a m)) = disk m
    end
  ∧ disk (settle (HomeScreen.mount env stored)) = stored.
Proof.
  pose proof (perform_effect env a m) as H. cbn zeta in H. split_and!.
  - intros key Hkey. destruct a as [| | | | |u|b];
      try (destruct H as [_ ->]; reflexivity).
    + destruct H as [_ ->]. destruct (setItem_ok env); [|reflexivity].
      now rewrite lookup_insert_ne.
    + destruct (onPress b) as [[]|]; [|now rewrite H].
      destruct (removeItem_ok env); destruct H as [_ ->]; [|reflexivity].
      now rewrite lookup_delete_ne.
  - destruct a; try exact I; now destruct H as [_ ->].
  - unfold HomeScreen.mount. now rewrite loadData_disk.
Qed.



(** X12.  As long as every write of a star press succeeds, the storage
    stays in line with the screen: if the stored text is the text of the
    favourites list (or there is none and the list is empty), this still
    holds after any session of actions; a failed deletion in the clearing
    dialog does not break it. *)
Theorem storage_stays_in_line (steps : list (Env * HomeScreen.action))
    (m : Machine HomeScreen.State) :
  writes_succeed steps → synced m → synced (session steps m).
Proof. apply session_synced. Qed.

Lemma storage_stays_in_line_witness :
  writes_succeed [(env_ok, HomeScreen.PressStar 4);
                  (env_down, HomeScreen.PressButton confirm_button);
                  (env_ok, HomeScreen.PressStar 1)]
  ∧ synced (home_with [])
  ∧ synced (session [(env_ok, HomeScreen.PressStar 4);
                     (env_down, HomeScreen.PressButton confirm_button);
                     (env_ok, HomeScreen.PressStar 1)] (home_with [])).
Proof.
  assert (writes_succeed [(env_ok, HomeScreen.PressStar 4);
                          (env_down, HomeScreen.PressButton confirm_button);
                          (env_ok, HomeScreen.PressStar 1)]) as Hw
    by (repeat constructor).
  assert (synced (home_with [])) as Hs by reflexivity.
  split_and!; [exact Hw | exact Hs |].
  exact (storage_stays_in_line _ _ Hw Hs).
Defined.



(** X14.  Favourites survive a restart: from a state in line with the
    storage, after any session in which every write of a star press
    succeeded, a new mount over the storage the session left, with a
    successful GET and read, shows the very list of favourites (same ids,
    same order) the session ended with. *)
Theorem favorites_survive_restart (env : Env) (us : list User)
    (steps : list (Env * HomeScreen.action)) (m : Machine HomeScreen.State) :
  synced m →
  writes_succeed steps →
  get_response env = Some us →
  getItem_ok env = true →
  HomeScreen.favorites
    (view (settle (HomeScreen.mount env (disk (session steps m)))))
  = HomeScreen.favorites (view (session steps m)).
Proof.
  intros Hm Hok Hus Hget.
  apply (mount_synced env _ _ us Hus Hget).
  exact (session_synced steps m Hok Hm).
Qed.

Lemma favorites_survive_restart_witness :
  let steps := [(env_ok, HomeScreen.PressStar 4); (env_ok, HomeScreen.PressStar 1);
                (env_ok, HomeScreen.PressStar 4); (env_ok, HomeScreen.PressStar 7)] in
  synced (home_with []) ∧ writes_succeed steps
  ∧ HomeScreen.favorites
      (view (settle (HomeScreen.mount env_ok (disk (session steps (home_with []))))))
    = HomeScreen.favorites (view (session steps (home_with []))).
Proof.
  intros steps.
  assert (synced (home_with [])) as Hs by reflexivity.
  assert (writes_succeed steps) as Hw by (repeat constructor).
  split_and!; [exact Hs | exact Hw |].
  exact (favorites_survive_restart env_ok [] steps (home_with []) Hs Hw eq_refl eq_refl).
Defined.

(** X15.  A failed load costs the stored favourites at the next star press:
    if the mount fails to load (the GET fails, or the read fails) while the
    storage holds the text of a list, the screen starts with no favourite,
    and the first star press whose write succeeds replaces the stored text
    by the text of the one-element list of the pressed id. *)
Theorem failed_load_then_toggle_overwrites (env1 env2 : Env)
    (stored : gmap string string) (ids : list Z) (u : Z) :
  stored !! FAVORITES_KEY = Some (JSON_stringify ids) →
  get_response env1 = None ∨ getItem_ok env1 = false →
  setItem_ok env2 = true →
  let m1 := settle (HomeScreen.mount env1 stored) in
  let m2 := settle (HomeScreen.perform env2 (HomeScreen.PressStar u) m1) in
  HomeScreen.favorites (view m1) = []
  ∧ disk m1 !! FAVORITES_KEY = Some (JSON_stringify ids)
  ∧ HomeScreen.favorites (view m2) = [u]
  ∧ disk m2 !! FAVORITES_KEY = Some (JSON_stringify [u]).
Proof.
  intros Hstored Hfail Hok m1 m2.
  assert (HomeScreen.favorites (view m1) = []) as Hfav.
  { subst m1. run_action.
    destruct Hfail as [Hget | Hread].
    - now rewrite Hget.
    - destruct (get_response env1); [|reflexivity]. now rewrite Hread. }
  assert (disk m1 = stored) as Hdisk
    by (subst m1; unfold HomeScreen.mount; now rewrite loadData_disk).
  pose proof (perform_effect env2 (HomeScreen.PressStar u) m1) as [H1 H2].
  fold m2 in H1, H2. rewrite Hfav in H1, H2. rewrite Hok in H2.
  split_and!.
  - exact Hfav.
  - now rewrite Hdisk.
  - exact H1.
  - rewrite H2. apply lookup_insert_eq.
Qed.

Lemma failed_load_then_toggle_overwrites_witness :
  let stored : gmap string string := {[ FAVORITES_KEY := JSON_stringify [4; 2] ]} in
  stored !! FAVORITES_KEY = Some (JSON_stringify [4; 2])
  ∧ (get_response env_down = None ∨ getItem_ok env_down = false)
  ∧ setItem_ok env_ok = true
  ∧ disk (settle (HomeScreen.perform env_ok (HomeScreen.PressStar 9)
                    (settle (HomeScreen.mount env_down stored))))
    !! FAVORITES_KEY = Some (JSON_stringify [9]).
Proof.
  intros stored.
  assert (stored !! FAVORITES_KEY = Some (JSON_stringify [4; 2])) as H
    by apply lookup_singleton_eq.
  split_and!; [exact H | left; reflexivity | reflexivity |].
  exact (proj2 (proj2 (proj2
           (failed_load_then_toggle_overwrites env_down env_ok stored [4; 2] 9
              H (or_introl eq_refl) eq_refl)))).
Defined.

(** ** What the screen shows *)

Section Rendering.
Implicit Types (s : HomeScreen.State) (favs : list Z) (us : list User) (u : Z).

Lemma cards_of_render s :
  HomeScreen.isLoading s = false →
  cards_of (HomeScreen.render s)
  = map (λ item, (HomeScreen.keyExtractor item, HomeScreen.renderItem s item))
      (HomeScreen.getFilteredUsers s).
Proof. intros H. unfold HomeScreen.render. now rewrite H. Qed.

(** Printing is injective: two integers with the same numeral are equal. *)
Lemma string_of_Z_inj (x y : Z) : string_of_Z x = string_of_Z y → x = y.
Proof.
  intros H.
  pose proof (prun_value x [] true "]" EmptyString eq_refl) as Hx.
  pose proof (prun_value y [] true "]" EmptyString eq_refl) as Hy.
  rewrite H, Hy in Hx. now injection Hx.
Qed.

Lemma string_of_Z_Inj : Inj (=) (=) string_of_Z.
Proof. intros x y. apply string_of_Z_inj. Qed.

(** The card of a user depends on the favourites only through the
    membership of the user's id. *)
Lemma renderItem_ext s s' (item : User) :
  (id item ∈ HomeScreen.favorites s ↔ id item ∈ HomeScreen.favorites s') →
  HomeScreen.renderItem s item = HomeScreen.renderItem s' item.
Proof.
  intros H. unfold HomeScreen.renderItem.
  now rewrite (bool_decide_ext _ _ H).
Qed.

(** Filtering the users by favourites from which [u] was removed, and
    rendering against them, is dropping the cards of [u]. *)
Lemma cards_without u s s' us :
  (∀ x, x ∈ HomeScreen.favorites s' ↔ x ∈ HomeScreen.favorites s ∧ x ≠ u) →
  map (λ item, (HomeScreen.keyExtractor item, HomeScreen.renderItem s' item))
    (filter (λ user, id user ∈ HomeScreen.favorites s') us)
  = filter (λ kc, HomeScreen.card_onPress kc.2 ≠ u)
      (map (λ item, (HomeScreen.keyExtractor item, HomeScreen.renderItem s item))
         (filter (λ user, id user ∈ HomeScreen.favorites s) us)).
Proof.
  intros Hfavs. induction us as [|item us IH]; [reflexivity|].
  rewrite !filter_cons.
  destruct (decide (id item ∈ HomeScreen.favorites s')) as [Hin'|Hout'].
  - pose proof (proj1 (Hfavs _) Hin') as [Hin Hne].
    rewrite decide_True by done. simpl.
    rewrite filter_cons_True by done.
    rewrite IH. f_equal. f_equal. apply renderItem_ext. tauto.
  - destruct (decide (id item ∈ HomeScreen.favorites s)) as [Hin|Hout];
      [|exact IH].
    simpl. rewrite filter_cons_False; [exact IH|].
    simpl. intros Hne. apply Hout', Hfavs. done.
Qed.

Lemma keys_NoDup_iff s :
  HomeScreen.isLoading s = false →
  NoDup (cards_of (HomeScreen.render s)).*1
  ↔ NoDup (id <$> HomeScreen.getFilteredUsers s).
Proof.
  intros Hload. rewrite cards_of_render by done.
  assert ((map (λ item, (HomeScreen.keyExtractor item, HomeScreen.renderItem s item))
             (HomeScreen.getFilteredUsers s)).*1
          = string_of_Z <$> (id <$> HomeScreen.getFilteredUsers s)) as ->.
  { induction (HomeScreen.getFilteredUsers s) as [|item us' IH]; [reflexivity|].
    simpl. f_equal. exact IH. }
  pose proof string_of_Z_Inj as Hinj.
  apply (NoDup_fmap string_of_Z).
Qed.

Lemma addUser_success_run (env : Env) (m : Machine HomeScreen.State) (r : User) :
  trim (HomeScreen.newUserName (view m)) ≠ [] →
  trim (HomeScreen.newUserEmail (view m)) ≠ [] →
  post_response env (HomeScreen.newUserName (view m))
    (HomeScreen.newUserEmail (view m)) = Some r →
  view (settle (dispatch (HomeScreen.addUser env) m))
  = {| HomeScreen.users := r :: HomeScreen.users (view m);
       HomeScreen.favorites := HomeScreen.favorites (view m);
       HomeScreen.isLoading := HomeScreen.isLoading (view m);
       HomeScreen.showOnlyFavorites := HomeScreen.showOnlyFavorites (view m);
       HomeScreen.newUserName := [];
       HomeScreen.newUserEmail := [] |}.
Proof.
  intros Hn He Hpost. run_handler.
  destruct (trim (HomeScreen.newUserName (view m))); [done|].
  destruct (trim (HomeScreen.newUserEmail (view m))); [done|].
  cbn [truthy negb orb]. now rewrite Hpost.
Qed.

End Rendering.

(** X16.  In favourites-only mode every card on the screen is starred: its
    star button has the active style and the full glyph, and the id it
    toggles is a favourite. *)
Theorem favorites_only_cards_starred (s : HomeScreen.State) :
  HomeScreen.isLoading s = false →
  HomeScreen.showOnlyFavorites s = true →
  Forall (λ kc, HomeScreen.favActive kc.2 = true
                ∧ HomeScreen.favText kc.2 = "★"
                ∧ HomeScreen.card_onPress kc.2 ∈ HomeScreen.favorites s)
    (cards_of (HomeScreen.render s)).
Proof.
  intros Hload Hflag. rewrite cards_of_render by done.
  unfold HomeScreen.getFilteredUsers. rewrite Hflag.
  apply Forall_forall. intros [key c] Hkc.
  apply list_elem_of_In, in_map_iff in Hkc as (item & [= <- <-] & Hitem).
  apply list_elem_of_In, list_elem_of_filter in Hitem as [Hfav _].
  unfold HomeScreen.renderItem. cbn.
  now rewrite bool_decide_eq_true_2.
Qed.

Lemma favorites_only_cards_starred_witness :
  let s := {| HomeScreen.users := [{| id := 1; name := js "Leanne"; email := js "l@x.com" |};
                                   {| id := 2; name := js "Ervin"; email := js "e@x.com" |}];
              HomeScreen.favorites := [2; 7];
              HomeScreen.isLoading := false;
              HomeScreen.showOnlyFavorites := true;
              HomeScreen.newUserName := []; HomeScreen.newUserEmail := [] |} in
  HomeScreen.isLoading s = false ∧ HomeScreen.showOnlyFavorites s = true
  ∧ Forall (λ kc, HomeScreen.favActive kc.2 = true
                  ∧ HomeScreen.favText kc.2 = "★"
                  ∧ HomeScreen.card_onPress kc.2 ∈ HomeScreen.favorites s)
      (cards_of (HomeScreen.render s)).
Proof.
  intros s. split_and!; [reflexivity | reflexivity |].
  exact (favorites_only_cards_starred s eq_refl eq_refl).
Defined.

(** X17.  In favourites-only mode, pressing the star of a card on display
    takes the cards of that id off the list, and leaves the other cards as
    they were, in their order, whatever the storage answers. *)
Theorem press_star_in_favorites_only (env : Env) (u : Z)
    (m : Machine HomeScreen.State) :
  HomeScreen.isLoading (view m) = false →
  HomeScreen.showOnlyFavorites (view m) = true →
  (∃ kc, kc ∈ cards_of (HomeScreen.render (view m))
         ∧ HomeScreen.card_onPress kc.2 = u) →
  cards_of (HomeScreen.render
              (view (settle (HomeScreen.perform env (HomeScreen.PressStar u) m))))
  = filter (λ kc, HomeScreen.card_onPress kc.2 ≠ u)
      (cards_of (HomeScreen.render (view m))).
Proof.
  intros Hload Hflag (kc & Hkc & Hu).
  assert (u ∈ HomeScreen.favorites (view m)) as Hfav.
  { rewrite cards_of_render in Hkc by done.
    unfold HomeScreen.getFilteredUsers in Hkc. rewrite Hflag in Hkc.
    apply list_elem_of_In, in_map_iff in Hkc as (item & <- & Hitem).
    apply list_elem_of_In, list_elem_of_filter in Hitem as [Hin _].
    now rewrite <- Hu. }
  unfold HomeScreen.perform. rewrite HomeScreen_toggleFavorite_run.
  cbn [settle view].
  rewrite !cards_of_render by done.
  unfold HomeScreen.getFilteredUsers.
  cbn [HomeScreen.showOnlyFavorites HomeScreen.users]. rewrite Hflag.
  apply cards_without. intros x. cbn [HomeScreen.favorites].
  rewrite elem_of_newFavorites. intuition congruence.
Qed.

Lemma press_star_in_favorites_only_witness :
  let m := {| view := {| HomeScreen.users :=
                           [{| id := 1; name := js "Leanne"; email := js "l@x.com" |};
                            {| id := 2; name := js "Ervin"; email := js "e@x.com" |};
                            {| id := 3; name := js "Clem"; email := js "c@x.com" |}];
                         HomeScreen.favorites := [3; 1];
                         HomeScreen.isLoading := false;
                         HomeScreen.showOnlyFavorites := true;
                         HomeScreen.newUserName := []; HomeScreen.newUserEmail := [] |};
              disk := ∅; log := [] |} in
  HomeScreen.isLoading (view m) = false
  ∧ HomeScreen.showOnlyFavorites (view m) = true
  ∧ (cards_of (HomeScreen.render (view m))).*1 = ["1"; "3"]
  ∧ cards_of (HomeScreen.render
                (view (settle (HomeScreen.perform env_down (HomeScreen.PressStar 1) m))))
    = filter (λ kc, HomeScreen.card_onPress kc.2 ≠ 1)
        (cards_of (HomeScreen.render (view m))).
Proof.
  intros m. split_and!; [reflexivity | reflexivity | reflexivity |].
  apply (press_star_in_favorites_only env_down 1 m eq_refl eq_refl).
  eexists. split; [left|reflexivity].
Defined.

(** X18.  With the filter off, pressing a star keeps the list of cards (same
    keys, names, e-mails and ids, in the same order) and flips the star of
    exactly the cards of the pressed id: their active style is negated,
    that of the others is kept, and every glyph follows the style. *)
Theorem press_star_in_show_all (env : Env) (u : Z) (m : Machine HomeScreen.State) :
  HomeScreen.isLoading (view m) = false →
  HomeScreen.showOnlyFavorites (view m) = false →
  Forall2
    (λ kc kc',
       kc'.1 = kc.1
       ∧ HomeScreen.card_name kc'.2 = HomeScreen.card_name kc.2
       ∧ HomeScreen.card_email kc'.2 = HomeScreen.card_email kc.2
       ∧ HomeScreen.card_onPress kc'.2 = HomeScreen.card_onPress kc.2
       ∧ HomeScreen.favActive kc'.2
         = (if decide (HomeScreen.card_onPress kc.2 = u)
            then negb (HomeScreen.favActive kc.2)
            else HomeScreen.favActive kc.2)
       ∧ HomeScreen.favText kc'.2
         = (if HomeScreen.favActive kc'.2 then "★" else "☆"))
    (cards_of (HomeScreen.render (view m)))
    (cards_of (HomeScreen.render
                 (view (settle (HomeScreen.perform env (HomeScreen.PressStar u) m))))).
Proof.
  intros Hload Hflag.
  unfold HomeScreen.perform. rewrite HomeScreen_toggleFavorite_run.
  cbn [settle view]. rewrite !cards_of_render by done.
  unfold HomeScreen.getFilteredUsers.
  cbn [HomeScreen.showOnlyFavorites HomeScreen.users]. rewrite Hflag.
  induction (HomeScreen.users (view m)) as [|item us IH]; [constructor|].
  simpl map. constructor; [|exact IH].
  unfold HomeScreen.renderItem. cbn.
  rewrite member_newFavorites.
  split_and!; try reflexivity.
  destruct (decide (id item = u)) as [Hu|Hu].
  - rewrite (bool_decide_eq_true_2 _ Hu). apply xorb_true_r.
  - rewrite (bool_decide_eq_false_2 _ Hu). apply xorb_false_r.
Qed.

Lemma press_star_in_show_all_witness :
  let m := {| view := {| HomeScreen.users :=
                           [{| id := 1; name := js "Leanne"; email := js "l@x.com" |};
                            {| id := 2; name := js "Ervin"; email := js "e@x.com" |}];
                         HomeScreen.favorites := [1];
                         HomeScreen.isLoading := false;
                         HomeScreen.showOnlyFavorites := false;
                         HomeScreen.newUserName := []; HomeScreen.newUserEmail := [] |};
              disk := ∅; log := [] |} in
  HomeScreen.isLoading (view m) = false
  ∧ HomeScreen.showOnlyFavorites (view m) = false
  ∧ length (cards_of (HomeScreen.render
                        (view (settle (HomeScreen.perform env_ok
                                         (HomeScreen.PressStar 2) m))))) = 2%nat.
Proof.
  intros m. split_and!; [reflexivity | reflexivity |].
  rewrite <- (Forall2_length _ _ _
                (press_star_in_show_all env_ok 2 m eq_refl eq_refl)).
  reflexivity.
Defined.

(** X19.  The keys of the cards are distinct exactly when the ids of the
    users on display are: [keyExtractor] never gives two different ids the
    same key.  In particular a users list with distinct ids is rendered with
    distinct keys, with the filter on or off. *)
Theorem card_keys_distinct (s : HomeScreen.State) :
  HomeScreen.isLoading s = false →
  (NoDup (cards_of (HomeScreen.render s)).*1
   ↔ NoDup (id <$> HomeScreen.getFilteredUsers s))
  ∧ (NoDup (id <$> HomeScreen.users s) → NoDup (cards_of (HomeScreen.render s)).*1).
Proof.
  intros Hload. split; [now apply keys_NoDup_iff|].
  intros Hids. apply keys_NoDup_iff; [done|].
  unfold HomeScreen.getFilteredUsers.
  destruct (HomeScreen.showOnlyFavorites s); [|exact Hids].
  eapply sublist_NoDup; [exact Hids|].
  apply fmap_sublist, sublist_filter.
Qed.

Lemma card_keys_distinct_witness :
  let s := {| HomeScreen.users := [{| id := 10; name := js "Leanne"; email := js "l@x.com" |};
                                   {| id := -3; name := js "Ervin"; email := js "e@x.com" |}];
              HomeScreen.favorites := [];
              HomeScreen.isLoading := false;
              HomeScreen.showOnlyFavorites := false;
              HomeScreen.newUserName := []; HomeScreen.newUserEmail := [] |} in
  HomeScreen.isLoading s = false
  ∧ (cards_of (HomeScreen.render s)).*1 = ["10"; "-3"]
  ∧ NoDup (cards_of (HomeScreen.render s)).*1.
Proof.
  intros s. split_and!; [reflexivity | reflexivity |].
  apply (proj2 (card_keys_distinct s eq_refl)).
  apply (bool_decide_unpack _). exact I.
Defined.

(** ** Adding users from the form *)

Section AddFromForm.
Implicit Types (env : Env) (m : Machine HomeScreen.State) (n e : jsstring).

Lemma session_app (steps steps' : list (Env * HomeScreen.action)) m :
  session (steps ++ steps') m = session steps' (session steps m).
Proof. unfold session. apply foldl_app. Qed.

(** Typing a name and an e-mail, then pressing the add button, when the
    POST succeeds. *)
Lemma type_and_add env0 env n e (r : User) m :
  ¬ blank n → ¬ blank e → post_response env n e = Some r →
  view (session [(env0, HomeScreen.ChangeName n); (env0, HomeScreen.ChangeEmail e);
                 (env, HomeScreen.PressAdd)] m)
  = {| HomeScreen.users := r :: HomeScreen.users (view m);
       HomeScreen.favorites := HomeScreen.favorites (view m);
       HomeScreen.isLoading := HomeScreen.isLoading (view m);
       HomeScreen.showOnlyFavorites := HomeScreen.showOnlyFavorites (view m);
       HomeScreen.newUserName := [];
       HomeScreen.newUserEmail := [] |}.
Proof.
  rewrite <- !trim_blank. intros Hn He Hpost.
  unfold session. cbn [foldl fst snd HomeScreen.perform].
  rewrite (addUser_success_run env _ r); [reflexivity | exact Hn | exact He | exact Hpost].
Qed.

End AddFromForm.

(** X20.  [addUser] does not look at the id the service returns: when two
    users are added from the form and the service answers both POSTs with
    the same id, both records are kept, the users list holds a repeated id,
    and with the filter off two cards of the screen share a key. *)
Theorem add_twice_same_id (env0 env1 env2 : Env) (n1 e1 n2 e2 : jsstring)
    (r1 r2 : User) (m : Machine HomeScreen.State) :
  ¬ blank n1 → ¬ blank e1 → ¬ blank n2 → ¬ blank e2 →
  post_response env1 n1 e1 = Some r1 →
  post_response env2 n2 e2 = Some r2 →
  id r1 = id r2 →
  let m' := session [(env0, HomeScreen.ChangeName n1); (env0, HomeScreen.ChangeEmail e1);
                     (env1, HomeScreen.PressAdd);
                     (env0, HomeScreen.ChangeName n2); (env0, HomeScreen.ChangeEmail e2);
                     (env2, HomeScreen.PressAdd)] m in
  HomeScreen.users (view m') = r2 :: r1 :: HomeScreen.users (view m)
  ∧ ¬ NoDup (id <$> HomeScreen.users (view m'))
  ∧ (HomeScreen.isLoading (view m) = false →
     HomeScreen.showOnlyFavorites (view m) = false →
     ¬ NoDup (cards_of (HomeScreen.render (view m'))).*1).
Proof.
  intros Hn1 He1 Hn2 He2 Hp1 Hp2 Hid m'.
  assert (view m'
          = {| HomeScreen.users := r2 :: r1 :: HomeScreen.users (view m);
               HomeScreen.favorites := HomeScreen.favorites (view m);
               HomeScreen.isLoading := HomeScreen.isLoading (view m);
               HomeScreen.showOnlyFavorites := HomeScreen.showOnlyFavorites (view m);
               HomeScreen.newUserName := [];
               HomeScreen.newUserEmail := [] |}) as Hview.
  { subst m'.
    change [(env0, HomeScreen.ChangeName n1); (env0, HomeScreen.ChangeEmail e1);
            (env1, HomeScreen.PressAdd);
            (env0, HomeScreen.ChangeName n2); (env0, HomeScreen.ChangeEmail e2);
            (env2, HomeScreen.PressAdd)]
      with ([(env0, HomeScreen.ChangeName n1); (env0, HomeScreen.ChangeEmail e1);
             (env1, HomeScreen.PressAdd)]
            ++ [(env0, HomeScreen.ChangeName n2); (env0, HomeScreen.ChangeEmail e2);
                (env2, HomeScreen.PressAdd)]).
    rewrite session_app.
    rewrite (type_and_add env0 env2 n2 e2 r2) by done.
    now rewrite (type_and_add env0 env1 n1 e1 r1) by done. }
  assert (¬ NoDup (id <$> r2 :: r1 :: HomeScreen.users (view m))) as Hdup.
  { simpl. rewrite Hid. intros Hnd. apply NoDup_cons in Hnd as [Hnotin _].
    apply Hnotin. now left. }
  rewrite Hview. cbn [HomeScreen.users]. split_and!; [reflexivity | exact Hdup |].
  intros Hload Hflag Hkeys. apply Hdup.
  apply keys_NoDup_iff in Hkeys; [|exact Hload].
  unfold HomeScreen.getFilteredUsers in Hkeys.
  cbn [HomeScreen.showOnlyFavorites HomeScreen.users] in Hkeys.
  now rewrite Hflag in Hkeys.
Qed.

Lemma add_twice_same_id_witness :
  let steps := [(env_ok, HomeScreen.ChangeName (js "Jane"));
                (env_ok, HomeScreen.ChangeEmail (js "jane@x.com"));
                (env_ok, HomeScreen.PressAdd);
                (env_ok, HomeScreen.ChangeName (js "John"));
                (env_ok, HomeScreen.ChangeEmail (js "john@x.com"));
                (env_ok, HomeScreen.PressAdd)] in
  ¬ blank (js "Jane") ∧ ¬ blank (js "jane@x.com")
  ∧ ¬ blank (js "John") ∧ ¬ blank (js "john@x.com")
  ∧ id <$> HomeScreen.users (view (session steps (home_with []))) = [11; 11]
  ∧ ¬ NoDup (id <$> HomeScreen.users (view (session steps (home_with [])))).
Proof.
  intros steps.
  assert (∀ t, trim (js t) ≠ [] → ¬ blank (js t)) as Hb
    by (intros t Ht; now rewrite <- trim_blank).
  assert (¬ blank (js "Jane")) as H1 by (apply Hb; vm_compute; discriminate).
  assert (¬ blank (js "jane@x.com")) as H2 by (apply Hb; vm_compute; discriminate).
  assert (¬ blank (js "John")) as H3 by (apply Hb; vm_compute; discriminate).
  assert (¬ blank (js "john@x.com")) as H4 by (apply Hb; vm_compute; discriminate).
  split_and!; [exact H1 | exact H2 | exact H3 | exact H4 | reflexivity |].
  exact (proj1 (proj2 (add_twice_same_id env_ok env_ok env_ok _ _ _ _ _ _
                         (home_with []) H1 H2 H3 H4 eq_refl eq_refl eq_refl))).
Defined.

(** X21.  After a mount whose GET fails, whatever the storage holds, the
    screen is the directory with empty form fields, the filter off and no
    card, and the list shows the text "Aucun favori pour le moment". *)
Theorem failed_mount_screen (env : Env) (stored : gmap string string) :
  get_response env = None →
  HomeScreen.render (view (settle (HomeScreen.mount env stored)))
  = HomeScreen.Directory [] [] false " Afficher favoris" []
      (Some "Aucun favori pour le moment").
Proof. intros Hget. run_action. now rewrite Hget. Qed.

Lemma failed_mount_screen_witness :
  get_response env_down = None
  ∧ HomeScreen.render
      (view (settle (HomeScreen.mount env_down {[ FAVORITES_KEY := "[4,2]" ]})))
    = HomeScreen.Directory [] [] false " Afficher favoris" []
        (Some "Aucun favori pour le moment").
Proof.
  split; [reflexivity|].
  exact (failed_mount_screen env_down {[ FAVORITES_KEY := "[4,2]" ]} eq_refl).
Defined.

(** X22.  A user added from the form becomes the first card of the list,
    unstarred unless the returned id already is a favourite, and the other
    cards are unchanged; except in favourites-only mode when the returned id
    is not a favourite, where the list of cards does not change at all. *)
Theorem added_user_card (env0 env : Env) (n e : jsstring) (r : User)
    (m : Machine HomeScreen.State) :
  ¬ blank n → ¬ blank e → post_response env n e = Some r →
  HomeScreen.isLoading (view m) = false →
  let s := view m in
  let s' := view (session [(env0, HomeScreen.ChangeName n);
                           (env0, HomeScreen.ChangeEmail e);
                           (env, HomeScreen.PressAdd)] m) in
  cards_of (HomeScreen.render s')
  = if HomeScreen.showOnlyFavorites s && negb (bool_decide (id r ∈ HomeScreen.favorites s))
    then cards_of (HomeScreen.render s)
    else (HomeScreen.keyExtractor r, HomeScreen.renderItem s r)
         :: cards_of (HomeScreen.render s).
Proof.
  intros Hn He Hpost Hload s s'. subst s s'.
  rewrite (type_and_add env0 env n e r) by done.
  rewrite !cards_of_render by done.
  unfold HomeScreen.getFilteredUsers.
  cbn [HomeScreen.showOnlyFavorites HomeScreen.users HomeScreen.favorites].
  destruct (HomeScreen.showOnlyFavorites (view m)); [|reflexivity].
  rewrite filter_cons. cbn [andb].
  destruct (decide (id r ∈ HomeScreen.favorites (view m))) as [Hin|Hout].
  - rewrite (bool_decide_eq_true_2 _ Hin). reflexivity.
  - rewrite (bool_decide_eq_false_2 _ Hout). reflexivity.
Qed.

Lemma added_user_card_witness :
  let m := {| view := {| HomeScreen.users := [{| id := 2; name := js "Ervin"; email := js "e@x.com" |}];
                         HomeScreen.favorites := [2];
                         HomeScreen.isLoading := false;
                         HomeScreen.showOnlyFavorites := true;
                         HomeScreen.newUserName := []; HomeScreen.newUserEmail := [] |};
              disk := ∅; log := [] |} in
  ¬ blank (js "Jane") ∧ ¬ blank (js "jane@x.com")
  ∧ cards_of (HomeScreen.render
                (view (session [(env_ok, HomeScreen.ChangeName (js "Jane"));
                                (env_ok, HomeScreen.ChangeEmail (js "jane@x.com"));
                                (env_ok, HomeScreen.PressAdd)] m)))
    = cards_of (HomeScreen.render (view m)).
Proof.
  intros m.
  assert (¬ blank (js "Jane")) as H1
    by (rewrite <- trim_blank; vm_compute; discriminate).
  assert (¬ blank (js "jane@x.com")) as H2
    by (rewrite <- trim_blank; vm_compute; discriminate).
  split_and!; [exact H1 | exact H2 |].
  exact (added_user_card env_ok env_ok _ _ _ m H1 H2 eq_refl eq_refl).
Defined.

(** X23.  After a confirmed clear whose deletion succeeds no card is
    starred; in favourites-only mode the list is then empty and shows the
    text "Aucun favori pour le moment". *)
Theorem cleared_screen (env : Env) (m : Machine HomeScreen.State) :
  removeItem_ok env = true →
  HomeScreen.isLoading (view m) = false →
  let s' := view (settle (HomeScreen.perform env
                            (HomeScreen.PressButton confirm_button) m)) in
  Forall (λ kc, HomeScreen.favActive kc.2 = false ∧ HomeScreen.favText kc.2 = "☆")
    (cards_of (HomeScreen.render s'))
  ∧ (HomeScreen.showOnlyFavorites (view m) = true →
     HomeScreen.render s'
     = HomeScreen.Directory (HomeScreen.newUserName (view m))
         (HomeScreen.newUserEmail (view m)) true " Afficher tout" []
         (Some "Aucun favori pour le moment")).
Proof.
  intros Hrm Hload s'.
  assert (s' = {| HomeScreen.users := HomeScreen.users (view m);
                  HomeScreen.favorites := [];
                  HomeScreen.isLoading := HomeScreen.isLoading (view m);
                  HomeScreen.showOnlyFavorites := HomeScreen.showOnlyFavorites (view m);
                  HomeScreen.newUserName := HomeScreen.newUserName (view m);
                  HomeScreen.newUserEmail := HomeScreen.newUserEmail (view m) |})
    as -> by (subst s'; run_action; cbn [onPress confirm_button]; run_handler;
              now rewrite Hrm).
  split.
  - rewrite cards_of_render by done. apply Forall_forall. intros [key c] Hkc.
    apply list_elem_of_In, in_map_iff in Hkc as (item & [= <- <-] & _).
    split; reflexivity.
  - intros Hflag. unfold HomeScreen.render, HomeScreen.getFilteredUsers.
    cbn [HomeScreen.isLoading HomeScreen.showOnlyFavorites HomeScreen.users
         HomeScreen.favorites HomeScreen.newUserName HomeScreen.newUserEmail].
    rewrite Hload, Hflag.
    assert (filter (λ user : User, id user ∈ @nil Z) (HomeScreen.users (view m)) = [])
      as ->.
    { induction (HomeScreen.users (view m)) as [|item us IH]; [reflexivity|].
      rewrite filter_cons_False; [exact IH | apply not_elem_of_nil]. }
    reflexivity.
Qed.

Lemma cleared_screen_witness :
  let m := {| view := {| HomeScreen.users := [{| id := 2; name := js "Ervin"; email := js "e@x.com" |}];
                         HomeScreen.favorites := [2];
                         HomeScreen.isLoading := false;
                         HomeScreen.showOnlyFavorites := true;
                         HomeScreen.newUserName := []; HomeScreen.newUserEmail := [] |};
              disk := {[ FAVORITES_KEY := "[2]" ]}; log := [] |} in
  removeItem_ok env_ok = true ∧ HomeScreen.isLoading (view m) = false
  ∧ HomeScreen.render
      (view (settle (HomeScreen.perform env_ok (HomeScreen.PressButton confirm_button) m)))
    = HomeScreen.Directory [] [] true " Afficher tout" []
        (Some "Aucun favori pour le moment").
Proof.
  intros m. split_and!; [reflexivity | reflexivity |].
  exact (proj2 (cleared_screen env_ok m eq_refl eq_refl) eq_refl).
Defined.

(** X24.  In [App] too the favourites survive a restart: after a
    [toggleFavorite] whose write succeeded, a mount over the storage it
    left, with a successful GET and read, commits the users of the reply
    and the very favourites list the toggle produced, and ends loading. *)
Theorem App_favorites_survive_restart (env env' : Env) (u : Z)
    (m : Machine App.State) (us : list User) :
  setItem_ok env = true →
  get_response env' = Some us →
  getItem_ok env' = true →
  let m' := settle (dispatch (App.toggleFavorite env u) m) in
  ∃ m'', App.mount env' (disk m') = Ok () m''
         ∧ App.favorites (view m'') = App.favorites (view m')
         ∧ App.favorites (view m'') = newFavorites (App.favorites (view m)) u
         ∧ App.users (view m'') = us
         ∧ App.isLoading (view m'') = false.
Proof.
  intros Hset Hus Hget m'. subst m'.
  rewrite App_toggleFavorite_run, Hset. cbn [settle view disk App.favorites].
  eexists. run_action. rewrite Hus, Hget. cbn [disk].
  rewrite lookup_insert_eq, JSON_stringify_truthy, JSON_parse_stringify.
  split; [reflexivity|]. split_and!; reflexivity.
Qed.

Lemma App_favorites_survive_restart_witness :
  setItem_ok env_ok = true ∧ get_response env_ok = Some [] ∧ getItem_ok env_ok = true
  ∧ ∃ m'', App.mount env_ok
             (disk (settle (dispatch (App.toggleFavorite env_ok 5) (app_with [3]))))
           = Ok () m''
           ∧ App.favorites (view m'') = [3; 5].
Proof.
  split_and!; [reflexivity | reflexivity | reflexivity |].
  destruct (App_favorites_survive_restart env_ok env_ok 5 (app_with [3]) []
              eq_refl eq_refl eq_refl)
    as (m'' & Hrun & _ & Hfav & _).
  exists m''. split; assumption.
Defined.
